(** * LegitCHAIN TITAN blockchain network adapters

    A shallow embedding of [src/blockchain-adapters.ts]: the three chain
    adapters ([CustomPoAAdapter], [PolygonAdapter], [EthereumAdapter]) and
    [ChainAdapterFactory].

    The adapters are thin asynchronous wrappers around external clients (the
    PoA client, the Polygon SDK, an ethers JSON-RPC provider).  Every call that
    leaves the adapter is an event of [BackendE]; an adapter method is a
    program over these events that threads the adapter object ([this]) and may
    throw.  The external world is a parameter: a [Handler] answers every
    event, with a value or with a thrown error. *)

From Stdlib Require Import ZArith Ascii String List Lia.
From Stdlib Require Import Floats.SpecFloat.
From stdpp Require Import base strings gmap list pretty.

Set Warnings "-register-all".
Local Open Scope string_scope.

(** ** JavaScript values *)

(** A JS [number] is an IEEE 754 binary64 value. *)
Definition float64 : Type := spec_float.

Definition prec64 : Z := 53.
Definition emax64 : Z := 1024.

Definition num_mul : float64 -> float64 -> float64 := SFmul prec64 emax64.
Definition num_sub : float64 -> float64 -> float64 := SFsub prec64 emax64.
Definition num_div : float64 -> float64 -> float64 := SFdiv prec64 emax64.

(** The number denoted by an integer literal (rounded to nearest even). *)
Definition num_of_Z (z : Z) : float64 := binary_normalize prec64 emax64 z 0 false.

#[global] Arguments num_mul : simpl never.
#[global] Arguments num_sub : simpl never.
#[global] Arguments num_div : simpl never.
#[global] Arguments num_of_Z : simpl never.

(** The literal [1.1]: the binary64 value nearest to 11/10, that is
    4953959590107546 * 2^-52. *)
Definition lit_1_1 : float64 := S754_finite false 4953959590107546 (-52).

(** The integer a number denotes, when it denotes one. *)
Definition num_to_Z (x : float64) : option Z :=
  match x with
  | S754_zero _ => Some 0%Z
  | S754_finite s m e =>
      let v := (if s then Z.neg m else Z.pos m) in
      if (0 <=? e)%Z then Some (v * 2 ^ e)%Z
      else if (v mod 2 ^ (- e) =? 0)%Z then Some (v / 2 ^ (- e))%Z
      else None
  | _ => None
  end.

Inductive JsValue : Type :=
| JUndefined
| JNull
| JBool (b : bool)
| JNum (n : float64)
| JBigInt (z : Z)
| JStr (s : string)
| JArr (l : list JsValue)
| JObj (o : gmap string JsValue).

(** A plain object: its own enumerable properties. *)
Abbreviation JsObject := (gmap string JsValue).

(** [o.p] on an object: a missing property reads as [undefined]. *)
Definition get_prop (o : JsObject) (p : string) : JsValue :=
  default JUndefined (o !! p).

(** [s === v] for a string [s]. *)
Definition str_strict_eq (s : string) (v : JsValue) : bool :=
  match v with
  | JStr t => String.eqb s t
  | _ => false
  end.

(** ** Errors and outcomes *)

Record JsError : Type := mkError { err_name : string; err_message : string }.

(** [new Error(msg)] *)
Definition Error (msg : string) : JsError := mkError "Error" msg.

(** The runtime's error for a property read on [undefined] or [null]. *)
Definition TypeError_read (base prop : string) : JsError :=
  mkError "TypeError"
    ("Cannot read properties of " +:+ base +:+ " (reading '" +:+ prop +:+ "')").

Inductive outcome (A : Type) : Type :=
| Returned (a : A)
| Thrown (e : JsError).
Arguments Returned {A} a.
Arguments Thrown {A} e.

Definition is_thrown {A} (r : outcome A) : bool :=
  match r with Thrown _ => true | Returned _ => false end.

(** ** Data model

    The adapters import their data types from [./types], whose declarations
    are not among the sources.  Each record below has the fields the adapters
    read, under the names they read them by. *)

(** Modelled from the spec: the declaration of [NetworkConfig] in [./types] is
    missing.  Backend identity, endpoints or RPC URL, optional credentials,
    timeout, network and version identifiers; a field that was not given reads
    as [undefined]. *)
Record NetworkConfig : Type := {
  endpoints : JsValue;
  timeout : JsValue;
  network : JsValue;
  version : JsValue;
  rpc : JsValue;
  verifier : JsValue;
  privateKey : JsValue
}.

(** Modelled from the spec: the declaration of [Transaction] in [./types] is
    missing.  The estimated resource cost, the one field the adapters compute
    with, and every other own property (target, payload, ...), which the
    adapters only copy. *)
Record Transaction : Type := {
  estimatedGas : float64;
  tx_fields : JsObject
}.

(** The properties an object spread [{...tx}] copies. *)
Definition spread_tx (tx : Transaction) : JsObject :=
  <["estimatedGas" := JNum (estimatedGas tx)]> (tx_fields tx).

(** Modelled from the spec: the declaration of [ContractCall] in [./types] is
    missing.  Target address, interface descriptor, method identifier and
    parameter list. *)
Record ContractCall : Type := {
  address : JsValue;
  abi : JsValue;
  method : string;
  params : list JsValue
}.

(** Modelled from the spec: the declaration of [Block] in [./types] is
    missing.  Number, hash, timestamp and the ordered transaction references. *)
Record Block : Type := {
  block_number : float64;
  block_hash : string;
  block_timestamp : float64;
  block_transactions : list string
}.

(** Modelled from the spec: the declaration of [ProofFormat] in [./types] is
    missing.  The payload and its detached signature. *)
Record ProofFormat : Type := {
  proof_data : JsValue;
  proof_signature : JsValue
}.

(** What the provider's [getFeeData()] resolves to; either fee may be
    [null]. *)
Record FeeData : Type := {
  maxFeePerGas : option Z;
  maxPriorityFeePerGas : option Z
}.

(** [x || d] for a nullable bigint: [null] and [0n] are falsy. *)
Definition bigint_or (x : option Z) (d : Z) : Z :=
  match x with
  | Some v => if (v =? 0)%Z then d else v
  | None => d
  end.

(** ** The backend boundary *)

(** A reference to an object owned by an external library (a client, an SDK,
    a provider, a contract). *)
Definition Handle : Type := nat.

Inductive BackendE : Type -> Type :=
(* Logger, from ./utils *)
| LoggerInfo (tag msg : string) : BackendE unit
| LoggerError (tag msg : string) (error : JsError) : BackendE unit
(* CustomPoAClient, from ./poa-client *)
| PoANew (config : NetworkConfig) : BackendE Handle
| PoAInitialize (c : Handle) : BackendE unit
| PoAConnect (c : Handle) (options : JsObject) : BackendE unit
| PoADisconnect (c : Handle) : BackendE unit
| PoAPrepareTransaction (c : Handle) (tx : JsObject) : BackendE JsValue
| PoASubmitTransaction (c : Handle) (preparedTx : JsValue) : BackendE string
| PoACallContract (c : Handle) (call : ContractCall) : BackendE JsValue
| PoAGetBlock (c : Handle) (blockNumber : float64) : BackendE Block
| PoAGetNetworkMetrics (c : Handle) : BackendE JsObject
| PoAGenerateProof (c : Handle) (data : JsValue) : BackendE ProofFormat
| PoAVerifyProof (c : Handle) (proof : ProofFormat) : BackendE bool
(* PolygonSDK, from @polygon/sdk *)
| SdkNew (options : JsObject) : BackendE Handle
| SdkInitialize (c : Handle) : BackendE unit
| SdkConnect (c : Handle) : BackendE unit
| SdkDisconnect (c : Handle) : BackendE unit
| SdkPrepareTransaction (c : Handle) (tx : JsObject) : BackendE JsValue
| SdkSubmitTransaction (c : Handle) (preparedTx : JsValue) : BackendE string
| SdkCallContract (c : Handle) (call : ContractCall) : BackendE JsValue
| SdkGetBlock (c : Handle) (blockNumber : float64) : BackendE Block
| SdkGetNetworkMetrics (c : Handle) : BackendE JsObject
| SdkGenerateProof (c : Handle) (data : JsValue) : BackendE ProofFormat
| SdkVerifyProof (c : Handle) (proof : ProofFormat) : BackendE bool
| SdkGetBaseFee (c : Handle) : BackendE Z
(* ethers JsonRpcProvider and Contract *)
| ProviderNew (url : JsValue) : BackendE Handle
| ProviderReady (p : Handle) : BackendE unit
| ProviderGetFeeData (p : Handle) : BackendE FeeData
| ProviderSendTransaction (p : Handle) (signedTx : string) : BackendE string
| ProviderGetBlock (p : Handle) (blockTag : JsValue) : BackendE (option Block)
| ProviderGetGasPrice (p : Handle) : BackendE Z
| ProviderGetNetwork (p : Handle) : BackendE JsValue
| ProviderGetBlockNumber (p : Handle) : BackendE float64
| ContractNew (address abi : JsValue) (provider : option Handle) : BackendE Handle
| ContractInvoke (contract : Handle) (method : string) (args : list JsValue)
    : BackendE JsValue
(* the clock *)
| DateNow : BackendE float64.

(** The pure functions of the ethers library the adapters use. *)
Class EthersLib : Type := {
  (** [ethers.parseUnits(value, unit)] *)
  parseUnits : string -> string -> Z;
  (** [JSON.stringify(data)]: a string, or [undefined] *)
  JSON_stringify : JsValue -> outcome JsValue;
  (** [ethers.utils.toUtf8Bytes(str)] *)
  toUtf8Bytes : JsValue -> outcome string;
  (** [ethers.utils.defaultAbiCoder.encode(['bytes'], [bytes])] *)
  abi_encode_bytes : string -> outcome string;
  (** [ethers.utils.serializeTransaction(tx)] *)
  serializeTransaction : JsObject -> outcome string;
  (** [ethers.utils.verifyMessage(message, signature)]: the signer's address *)
  verifyMessage : JsValue -> JsValue -> outcome string;
  (** [new ethers.Wallet(privateKey, provider).signMessage(message)] *)
  Wallet_signMessage : JsValue -> option Handle -> string -> outcome string
}.

(** ** Programs over the backend *)

Inductive Prog (A : Type) : Type :=
| Ret (a : A)
| Vis (X : Type) (e : BackendE X) (k : outcome X -> Prog A).
Arguments Ret {A} a.
Arguments Vis {A X} e k.

Fixpoint pbind {A B} (p : Prog A) (f : A -> Prog B) : Prog B :=
  match p with
  | Ret a => f a
  | Vis e k => Vis e (fun r => pbind (k r) f)
  end.

(** A method of an object with fields [S]: it may call the backend, update
    [this], and return or throw.  A field update made before a throw stays. *)
Definition Method (S A : Type) : Type := S -> Prog (outcome A * S).

Definition ret {S A} (a : A) : Method S A :=
  fun this => Ret (Returned a, this).

Definition throw {S A} (e : JsError) : Method S A :=
  fun this => Ret (Thrown e, this).

Definition bind {S A B} (m : Method S A) (f : A -> Method S B) : Method S B :=
  fun this =>
    pbind (m this) (fun rs =>
      match fst rs with
      | Returned a => f a (snd rs)
      | Thrown e => Ret (Thrown e, snd rs)
      end).

Declare Scope method_scope.
Delimit Scope method_scope with method.
Notation "x <- m ;; k" := (bind m (fun x => k))
  (at level 100, m at next level, right associativity) : method_scope.
Notation "m ;;; k" := (bind m (fun _ => k))
  (at level 100, right associativity) : method_scope.
Local Open Scope method_scope.

(** [await backend.call(...)] *)
Definition await {S X} (e : BackendE X) : Method S X :=
  fun this => Vis e (fun r => Ret (r, this)).

(** A value of the pure library, or the error it throws. *)
Definition lift_outcome {S A} (r : outcome A) : Method S A :=
  fun this => Ret (r, this).

Definition read_this {S} : Method S S :=
  fun this => Ret (Returned this, this).

(** [try { body } catch (error) { handler }] *)
Definition try_catch {S A} (body : Method S A) (handler : JsError -> Method S A)
  : Method S A :=
  fun this =>
    pbind (body this) (fun rs =>
      match fst rs with
      | Returned a => Ret (Returned a, snd rs)
      | Thrown e => handler e (snd rs)
      end).

(** Calling an async function without awaiting it yet: the promise it
    returns, settled. *)
Definition promise {S A} (m : Method S A) : Method S (outcome A) :=
  fun this => pbind (m this) (fun rs => Ret (Returned (fst rs), snd rs)).

(** [await Promise.all] of three promises, given in the order they settled:
    all three values, or the rejection of the first to reject. *)
Definition Promise_all3 {S A B C} (p1 : outcome A) (p2 : outcome B) (p3 : outcome C)
  : Method S (A * B * C) :=
  match p1, p2, p3 with
  | Returned a, Returned b, Returned c => ret (a, b, c)
  | Thrown e, _, _ => throw e
  | _, Thrown e, _ => throw e
  | _, _, Thrown e => throw e
  end.

(** [base.prop] where [base] is a field that is [undefined] until set. *)
Definition deref {S A} (base : option A) (prop : string) : Method S A :=
  match base with
  | Some x => ret x
  | None => throw (TypeError_read "undefined" prop)
  end.

(** [base.prop] where [base] may be [null]. *)
Definition deref_null {S A} (base : option A) (prop : string) : Method S A :=
  match base with
  | Some x => ret x
  | None => throw (TypeError_read "null" prop)
  end.

(** ** Running a program against a backend *)

Definition Handler (W : Type) : Type :=
  forall X, BackendE X -> W -> outcome X * W.

(** A call that reached the backend. *)
Inductive Call : Type :=
| MkCall (X : Type) (e : BackendE X).
Arguments MkCall {X} e.

Fixpoint run {W A} (h : Handler W) (p : Prog A) (w : W) : A * W * list Call :=
  match p with
  | Ret a => (a, w, [])
  | Vis e k =>
      let rw := h _ e w in
      let res := run h (k (fst rw)) (snd rw) in
      (fst (fst res), snd (fst res), MkCall e :: snd res)
  end.

(** What the caller gets back. *)
Definition result_of {W A S} (h : Handler W) (m : Method S A) (this : S) (w : W)
  : outcome A :=
  fst (fst (fst (run h (m this) w))).

(** The object after the call. *)
Definition this_after {W A S} (h : Handler W) (m : Method S A) (this : S) (w : W)
  : S :=
  snd (fst (fst (run h (m this) w))).

(** The backend after the call. *)
Definition world_after {W A S} (h : Handler W) (m : Method S A) (this : S) (w : W)
  : W :=
  snd (fst (run h (m this) w)).

(** The calls made, in order. *)
Definition calls_of {W A S} (h : Handler W) (m : Method S A) (this : S) (w : W)
  : list Call :=
  snd (run h (m this) w).

(** ** CustomPoAAdapter *)

Module CustomPoAAdapter.

Record t : Type := {
  config : NetworkConfig;
  client : option Handle
}.

Definition logger : string := "CustomPoAAdapter".

(** [constructor(private readonly config)] *)
Definition new (config : NetworkConfig) : t :=
  {| config := config; client := None |}.

Definition set_client (c : Handle) : Method t unit :=
  fun this => Ret (Returned tt, {| config := config this; client := Some c |}).

Definition initialize (config : NetworkConfig) : Method t unit :=
  try_catch
    (c <- await (PoANew config) ;;
     set_client c ;;;
     this <- read_this ;;
     c <- deref (client this) "initialize" ;;
     await (PoAInitialize c) ;;;
     await (LoggerInfo logger "CustomPoA adapter initialized"))
    (fun error =>
       await (LoggerError logger "Failed to initialize CustomPoA adapter:" error) ;;;
       throw error).

Definition connect : Method t unit :=
  this <- read_this ;;
  c <- deref (client this) "connect" ;;
  await (PoAConnect c
           {[ "endpoints" := endpoints (config this);
              "timeout" := timeout (config this) ]}).

Definition disconnect : Method t unit :=
  this <- read_this ;;
  c <- deref (client this) "disconnect" ;;
  await (PoADisconnect c).

Definition calculateOptimalGasLimit (tx : Transaction) : float64 :=
  num_mul (estimatedGas tx) lit_1_1.

Definition submitTransaction (tx : Transaction) : Method t string :=
  this <- read_this ;;
  c <- deref (client this) "prepareTransaction" ;;
  preparedTx <- await (PoAPrepareTransaction c
                         (<["gasLimit" := JNum (calculateOptimalGasLimit tx)]>
                            (<["gasPrice" := JStr "0"]> (spread_tx tx)))) ;;
  this' <- read_this ;;
  c' <- deref (client this') "submitTransaction" ;;
  await (PoASubmitTransaction c' preparedTx).

Definition callContract (call : ContractCall) : Method t JsValue :=
  this <- read_this ;;
  c <- deref (client this) "callContract" ;;
  await (PoACallContract c call).

Definition getBlock (blockNumber : float64) : Method t Block :=
  this <- read_this ;;
  c <- deref (client this) "getBlock" ;;
  await (PoAGetBlock c blockNumber).

Definition getMetrics : Method t JsObject :=
  this <- read_this ;;
  c <- deref (client this) "getNetworkMetrics" ;;
  metrics <- await (PoAGetNetworkMetrics c) ;;
  ret ({[ "blockTime" := get_prop metrics "averageBlockTime";
          "tps" := get_prop metrics "transactionsPerSecond";
          "nodeCount" := get_prop metrics "activeNodes";
          "latency" := get_prop metrics "networkLatency" ]} : JsObject).

Definition generateProof (data : JsValue) : Method t ProofFormat :=
  this <- read_this ;;
  c <- deref (client this) "generateProof" ;;
  await (PoAGenerateProof c data).

Definition verifyProof (proof : ProofFormat) : Method t bool :=
  this <- read_this ;;
  c <- deref (client this) "verifyProof" ;;
  await (PoAVerifyProof c proof).

End CustomPoAAdapter.

(** ** PolygonAdapter *)

Module PolygonAdapter.

Record t : Type := {
  config : NetworkConfig;
  sdk : option Handle
}.

Definition logger : string := "PolygonAdapter".

Definition new (config : NetworkConfig) : t :=
  {| config := config; sdk := None |}.

Definition set_sdk (c : Handle) : Method t unit :=
  fun this => Ret (Returned tt, {| config := config this; sdk := Some c |}).

Definition initialize (config : NetworkConfig) : Method t unit :=
  try_catch
    (c <- await (SdkNew {[ "network" := network config;
                           "version" := version config;
                           "rpc" := rpc config ]}) ;;
     set_sdk c ;;;
     this <- read_this ;;
     s <- deref (sdk this) "initialize" ;;
     await (SdkInitialize s) ;;;
     await (LoggerInfo logger "Polygon adapter initialized"))
    (fun error =>
       await (LoggerError logger "Failed to initialize Polygon adapter:" error) ;;;
       throw error).

Definition connect : Method t unit :=
  this <- read_this ;;
  s <- deref (sdk this) "connect" ;;
  await (SdkConnect s).

Definition disconnect : Method t unit :=
  this <- read_this ;;
  s <- deref (sdk this) "disconnect" ;;
  await (SdkDisconnect s).

Definition getOptimalMaxFeePerGas : Method t Z :=
  this <- read_this ;;
  s <- deref (sdk this) "getBaseFee" ;;
  baseFee <- await (SdkGetBaseFee s) ;;
  ret (baseFee * 2)%Z.

Definition getOptimalPriorityFee `{EthersLib} : Method t Z :=
  ret (parseUnits "30" "gwei").

Definition submitTransaction `{EthersLib} (tx : Transaction) : Method t string :=
  this <- read_this ;;
  s <- deref (sdk this) "prepareTransaction" ;;
  maxFee <- getOptimalMaxFeePerGas ;;
  priorityFee <- getOptimalPriorityFee ;;
  preparedTx <- await (SdkPrepareTransaction s
                         (<["maxPriorityFeePerGas" := JBigInt priorityFee]>
                            (<["maxFeePerGas" := JBigInt maxFee]> (spread_tx tx)))) ;;
  this' <- read_this ;;
  s' <- deref (sdk this') "submitTransaction" ;;
  await (SdkSubmitTransaction s' preparedTx).

Definition callContract (call : ContractCall) : Method t JsValue :=
  this <- read_this ;;
  s <- deref (sdk this) "callContract" ;;
  await (SdkCallContract s call).

Definition getBlock (blockNumber : float64) : Method t Block :=
  this <- read_this ;;
  s <- deref (sdk this) "getBlock" ;;
  await (SdkGetBlock s blockNumber).

Definition getMetrics : Method t JsObject :=
  this <- read_this ;;
  s <- deref (sdk this) "getNetworkMetrics" ;;
  metrics <- await (SdkGetNetworkMetrics s) ;;
  ret ({[ "blockTime" := get_prop metrics "averageBlockTime";
          "tps" := get_prop metrics "transactionsPerSecond";
          "nodeCount" := get_prop metrics "activeValidators";
          "latency" := get_prop metrics "networkLatency" ]} : JsObject).

Definition generateProof (data : JsValue) : Method t ProofFormat :=
  this <- read_this ;;
  s <- deref (sdk this) "generateProof" ;;
  await (SdkGenerateProof s data).

Definition verifyProof (proof : ProofFormat) : Method t bool :=
  this <- read_this ;;
  s <- deref (sdk this) "verifyProof" ;;
  await (SdkVerifyProof s proof).

End PolygonAdapter.

(** ** EthereumAdapter *)

Module EthereumAdapter.

Record t : Type := {
  config : NetworkConfig;
  provider : option Handle
}.

Definition logger : string := "EthereumAdapter".

Definition new (config : NetworkConfig) : t :=
  {| config := config; provider := None |}.

Definition set_provider (p : Handle) : Method t unit :=
  fun this => Ret (Returned tt, {| config := config this; provider := Some p |}).

Definition initialize (config : NetworkConfig) : Method t unit :=
  try_catch
    (p <- await (ProviderNew (rpc config)) ;;
     set_provider p ;;;
     this <- read_this ;;
     p' <- deref (provider this) "ready" ;;
     await (ProviderReady p') ;;;
     await (LoggerInfo logger "Ethereum adapter initialized"))
    (fun error =>
       await (LoggerError logger "Failed to initialize Ethereum adapter:" error) ;;;
       throw error).

Definition connect : Method t unit :=
  this <- read_this ;;
  p <- deref (provider this) "ready" ;;
  await (ProviderReady p).

(** The body is a comment only. *)
Definition disconnect : Method t unit :=
  ret tt.

Definition getOptimalMaxFeePerGas `{EthersLib} : Method t Z :=
  this <- read_this ;;
  p <- deref (provider this) "getFeeData" ;;
  feeData <- await (ProviderGetFeeData p) ;;
  ret (bigint_or (maxFeePerGas feeData) (parseUnits "50" "gwei")).

Definition getOptimalPriorityFee `{EthersLib} : Method t Z :=
  this <- read_this ;;
  p <- deref (provider this) "getFeeData" ;;
  feeData <- await (ProviderGetFeeData p) ;;
  ret (bigint_or (maxPriorityFeePerGas feeData) (parseUnits "2" "gwei")).

(** [provider.sendTransaction] resolves to a response; the event yields its
    [hash]. *)
Definition submitTransaction `{EthersLib} (tx : Transaction) : Method t string :=
  maxFee <- getOptimalMaxFeePerGas ;;
  priorityFee <- getOptimalPriorityFee ;;
  let preparedTx : JsObject :=
    <["type" := JNum (num_of_Z 2)]>
      (<["maxPriorityFeePerGas" := JBigInt priorityFee]>
         (<["maxFeePerGas" := JBigInt maxFee]> (spread_tx tx))) in
  this <- read_this ;;
  p <- deref (provider this) "sendTransaction" ;;
  serialized <- lift_outcome (serializeTransaction preparedTx) ;;
  await (ProviderSendTransaction p serialized).

Definition callContract (call : ContractCall) : Method t JsValue :=
  this <- read_this ;;
  contract <- await (ContractNew (address call) (abi call) (provider this)) ;;
  await (ContractInvoke contract (method call) (params call)).

Definition getBlock (blockNumber : float64) : Method t Block :=
  this <- read_this ;;
  p <- deref (provider this) "getBlock" ;;
  answer <- await (ProviderGetBlock p (JNum blockNumber)) ;;
  block <- deref_null answer "number" ;;
  ret {| block_number := block_number block;
         block_hash := block_hash block;
         block_timestamp := block_timestamp block;
         block_transactions := block_transactions block |}.

(** [calculateAverageBlockTime] up to its first [await]: the request for the
    latest block. *)
Definition averageBlockTime_latest : Method t (option Block) :=
  this <- read_this ;;
  p <- deref (provider this) "getBlock" ;;
  await (ProviderGetBlock p (JStr "latest")).

(** [calculateAverageBlockTime] from its first [await] on. *)
Definition averageBlockTime_rest (latestAnswer : option Block) : Method t float64 :=
  let blockCount := num_of_Z 100 in
  this' <- read_this ;;
  p' <- deref (provider this') "getBlock" ;;
  latestBlock <- deref_null latestAnswer "number" ;;
  oldAnswer <- await (ProviderGetBlock p'
                        (JNum (num_sub (block_number latestBlock) blockCount))) ;;
  oldBlock <- deref_null oldAnswer "timestamp" ;;
  ret (num_div (num_sub (block_timestamp latestBlock) (block_timestamp oldBlock))
         blockCount).

Definition calculateAverageBlockTime : Method t float64 :=
  latestAnswer <- averageBlockTime_latest ;;
  averageBlockTime_rest latestAnswer.

Definition measureNetworkLatency : Method t float64 :=
  start <- await DateNow ;;
  this <- read_this ;;
  p <- deref (provider this) "getBlockNumber" ;;
  await (ProviderGetBlockNumber p) ;;;
  now <- await DateNow ;;
  ret (num_sub now start).

(** The three promises of the array are started one after the other:
    [calculateAverageBlockTime()] runs to its first [await], then the gas price
    and the network are asked for; only then does [calculateAverageBlockTime]
    go on to its second block.  So it settles before the other two when its
    first request is refused, and after them otherwise. *)
Definition getMetrics : Method t JsObject :=
  latest <- promise averageBlockTime_latest ;;
  this <- read_this ;;
  p <- deref (provider this) "getGasPrice" ;;
  p2 <- promise (await (ProviderGetGasPrice p)) ;;
  this' <- read_this ;;
  p' <- deref (provider this') "getNetwork" ;;
  p3 <- promise (await (ProviderGetNetwork p')) ;;
  p1 <- promise (latestAnswer <- lift_outcome latest ;;
                 averageBlockTime_rest latestAnswer) ;;
  settled <- match latest with
             | Thrown _ => Promise_all3 p1 p2 p3
             | Returned _ =>
                 r <- Promise_all3 p2 p3 p1 ;;
                 ret (snd r, fst (fst r), snd (fst r))
             end ;;
  let blockTime := fst (fst settled) in
  let gasPrice := snd (fst settled) in
  let peerCount := snd settled in
  let gasPriceText : string := pretty gasPrice in
  latency <- measureNetworkLatency ;;
  ret ({[ "blockTime" := JNum blockTime;
          "gasPrice" := JStr gasPriceText;
          "nodeCount" := peerCount;
          "latency" := JNum latency ]} : JsObject).

Definition signData `{EthersLib} (data : string) : Method t string :=
  this <- read_this ;;
  lift_outcome (Wallet_signMessage (privateKey (config this)) (provider this) data).

Definition generateProof `{EthersLib} (data : JsValue) : Method t ProofFormat :=
  json <- lift_outcome (JSON_stringify data) ;;
  bytes <- lift_outcome (toUtf8Bytes json) ;;
  serialized <- lift_outcome (abi_encode_bytes bytes) ;;
  signature <- signData serialized ;;
  ret {| proof_data := JStr serialized; proof_signature := JStr signature |}.

Definition verifyProof `{EthersLib} (proof : ProofFormat) : Method t bool :=
  signer <- lift_outcome (verifyMessage (proof_data proof) (proof_signature proof)) ;;
  this <- read_this ;;
  ret (str_strict_eq signer (verifier (config this))).

End EthereumAdapter.

(** ** IChainAdapter *)

Class IChainAdapter (S : Type) : Type := {
  initialize : NetworkConfig -> Method S unit;
  connect : Method S unit;
  disconnect : Method S unit;
  submitTransaction : Transaction -> Method S string;
  callContract : ContractCall -> Method S JsValue;
  getBlock : float64 -> Method S Block;
  getMetrics : Method S JsObject;
  generateProof : JsValue -> Method S ProofFormat;
  verifyProof : ProofFormat -> Method S bool
}.

#[export] Instance CustomPoAAdapter_IChainAdapter : IChainAdapter CustomPoAAdapter.t := {
  initialize := CustomPoAAdapter.initialize;
  connect := CustomPoAAdapter.connect;
  disconnect := CustomPoAAdapter.disconnect;
  submitTransaction := CustomPoAAdapter.submitTransaction;
  callContract := CustomPoAAdapter.callContract;
  getBlock := CustomPoAAdapter.getBlock;
  getMetrics := CustomPoAAdapter.getMetrics;
  generateProof := CustomPoAAdapter.generateProof;
  verifyProof := CustomPoAAdapter.verifyProof
}.

#[export] Instance PolygonAdapter_IChainAdapter `{EthersLib}
  : IChainAdapter PolygonAdapter.t := {
  initialize := PolygonAdapter.initialize;
  connect := PolygonAdapter.connect;
  disconnect := PolygonAdapter.disconnect;
  submitTransaction := PolygonAdapter.submitTransaction;
  callContract := PolygonAdapter.callContract;
  getBlock := PolygonAdapter.getBlock;
  getMetrics := PolygonAdapter.getMetrics;
  generateProof := PolygonAdapter.generateProof;
  verifyProof := PolygonAdapter.verifyProof
}.

#[export] Instance EthereumAdapter_IChainAdapter `{EthersLib}
  : IChainAdapter EthereumAdapter.t := {
  initialize := EthereumAdapter.initialize;
  connect := EthereumAdapter.connect;
  disconnect := EthereumAdapter.disconnect;
  submitTransaction := EthereumAdapter.submitTransaction;
  callContract := EthereumAdapter.callContract;
  getBlock := EthereumAdapter.getBlock;
  getMetrics := EthereumAdapter.getMetrics;
  generateProof := EthereumAdapter.generateProof;
  verifyProof := EthereumAdapter.verifyProof
}.

(** ** Adapter objects behind the interface *)

(** What a variable of type [IChainAdapter] refers to: an object of one of
    the three classes. *)
Inductive Adapter : Type :=
| PoA (a : CustomPoAAdapter.t)
| Polygon (a : PolygonAdapter.t)
| Ethereum (a : EthereumAdapter.t).

Definition pmap {A B} (f : A -> B) (p : Prog A) : Prog B :=
  pbind p (fun a => Ret (f a)).

(** A method of a class, run on the object the interface variable refers to. *)
Definition via {S A} (inj : S -> Adapter) (m : Method S A) (this : S)
  : Prog (outcome A * Adapter) :=
  pmap (fun rs => (fst rs, inj (snd rs))) (m this).

(** Dynamic dispatch on the class of [this]. *)
Definition dispatch `{EthersLib} {A} (m : forall S, IChainAdapter S -> Method S A)
  : Method Adapter A :=
  fun this =>
    match this with
    | PoA a => via PoA (m _ _) a
    | Polygon a => via Polygon (m _ _) a
    | Ethereum a => via Ethereum (m _ _) a
    end.

#[export] Instance Adapter_IChainAdapter `{EthersLib} : IChainAdapter Adapter := {
  initialize := fun config => dispatch (fun S I => @initialize S I config);
  connect := dispatch (@connect);
  disconnect := dispatch (@disconnect);
  submitTransaction := fun tx => dispatch (fun S I => @submitTransaction S I tx);
  callContract := fun call => dispatch (fun S I => @callContract S I call);
  getBlock := fun n => dispatch (fun S I => @getBlock S I n);
  getMetrics := dispatch (@getMetrics);
  generateProof := fun data => dispatch (fun S I => @generateProof S I data);
  verifyProof := fun proof => dispatch (fun S I => @verifyProof S I proof)
}.

(** The six operational methods of the interface, and what they resolve to. *)
Inductive Operation : Type :=
| OpSubmitTransaction (tx : Transaction)
| OpCallContract (call : ContractCall)
| OpGetBlock (blockNumber : float64)
| OpGetMetrics
| OpGenerateProof (data : JsValue)
| OpVerifyProof (proof : ProofFormat).

Inductive Resolved : Type :=
| ResString (s : string)
| ResValue (v : JsValue)
| ResBlock (b : Block)
| ResMetrics (m : JsObject)
| ResProof (p : ProofFormat)
| ResBool (b : bool).

Definition perform {S} `{IChainAdapter S} (op : Operation) : Method S Resolved :=
  match op with
  | OpSubmitTransaction tx => r <- submitTransaction tx ;; ret (ResString r)
  | OpCallContract call => r <- callContract call ;; ret (ResValue r)
  | OpGetBlock n => r <- getBlock n ;; ret (ResBlock r)
  | OpGetMetrics => r <- getMetrics ;; ret (ResMetrics r)
  | OpGenerateProof data => r <- generateProof data ;; ret (ResProof r)
  | OpVerifyProof proof => r <- verifyProof proof ;; ret (ResBool r)
  end.

(** ** ChainAdapterFactory *)

(** The object store: [new] appends an object and yields its reference. *)
Abbreviation Ref := nat.
Abbreviation Heap := (list Adapter).

Definition alloc (obj : Adapter) (heap : Heap) : outcome Ref * Heap :=
  (Returned (List.length heap), (heap ++ [obj])%list).

Module ChainAdapterFactory.

Definition createAdapter (chainType : string) (config : NetworkConfig) (heap : Heap)
  : outcome Ref * Heap :=
  if String.eqb chainType "POA" then
    alloc (PoA (CustomPoAAdapter.new config)) heap
  else if String.eqb chainType "POLYGON" then
    alloc (Polygon (PolygonAdapter.new config)) heap
  else if String.eqb chainType "ETHEREUM" then
    alloc (Ethereum (EthereumAdapter.new config)) heap
  else
    (Thrown (Error ("Unsupported chain type: " +:+ chainType)), heap).

End ChainAdapterFactory.

(** The classes the factory knows, by token. *)
Inductive ChainType : Type := POA | POLYGON | ETHEREUM.

Definition token (k : ChainType) : string :=
  match k with
  | POA => "POA"
  | POLYGON => "POLYGON"
  | ETHEREUM => "ETHEREUM"
  end.

(** The object a constructor call of class [k] builds. *)
Definition constructed (k : ChainType) (config : NetworkConfig) : Adapter :=
  match k with
  | POA => PoA (CustomPoAAdapter.new config)
  | POLYGON => Polygon (PolygonAdapter.new config)
  | ETHEREUM => Ethereum (EthereumAdapter.new config)
  end.

(** The config the object was constructed with, and its client field. *)
Definition config_of (a : Adapter) : NetworkConfig :=
  match a with
  | PoA a => CustomPoAAdapter.config a
  | Polygon a => PolygonAdapter.config a
  | Ethereum a => EthereumAdapter.config a
  end.

Definition client_of (a : Adapter) : option Handle :=
  match a with
  | PoA a => CustomPoAAdapter.client a
  | Polygon a => PolygonAdapter.sdk a
  | Ethereum a => EthereumAdapter.provider a
  end.

(** The operations whose first step reads a property of the client field. *)
Definition reads_client_first (k : ChainType) (op : Operation) : bool :=
  match k, op with
  | ETHEREUM, OpCallContract _ => false
  | ETHEREUM, OpGenerateProof _ => false
  | ETHEREUM, OpVerifyProof _ => false
  | _, _ => true
  end.

(** ** A reference library and backends to run the adapters against *)

Module Reference.

(** [ethers.parseUnits] on the decimal integer literals and unit names the
    adapters pass: the value times ten to the unit's number of decimals. *)
Definition unit_decimals (unit : string) : option Z :=
  if String.eqb unit "wei" then Some 0%Z
  else if String.eqb unit "kwei" then Some 3%Z
  else if String.eqb unit "mwei" then Some 6%Z
  else if String.eqb unit "gwei" then Some 9%Z
  else if String.eqb unit "szabo" then Some 12%Z
  else if String.eqb unit "finney" then Some 15%Z
  else if String.eqb unit "ether" then Some 18%Z
  else None.

Definition digit_value (c : ascii) : option Z :=
  let n := Z.of_nat (Ascii.nat_of_ascii c) in
  if ((48 <=? n) && (n <=? 57))%Z then Some (n - 48)%Z else None.

Fixpoint parse_digits (s : string) (acc : Z) : option Z :=
  match s with
  | EmptyString => Some acc
  | String c rest =>
      match digit_value c with
      | Some d => parse_digits rest (acc * 10 + d)%Z
      | None => None
      end
  end.

Definition parseUnits (value unit : string) : Z :=
  match parse_digits value 0%Z, unit_decimals unit with
  | Some v, Some d => (v * 10 ^ d)%Z
  | _, _ => 0%Z
  end.

(** A stand-in signature scheme with the interface of ethers' message
    signing: the signature of [msg] under [key] is ["0x" msg "/" key], the
    signer's address is ["addr:" key].  Recovery raises on a signature that
    does not start with ["0x"], and recovers an unrelated address from a
    signature made for another message. *)
Definition address_of_key (key : string) : string := "addr:" +:+ key.

Definition sign (key msg : string) : string := "0x" +:+ (msg +:+ ("/" +:+ key)).

Fixpoint strip_prefix (p s : string) : option string :=
  match p, s with
  | EmptyString, _ => Some s
  | String a p', String b s' =>
      if Ascii.eqb a b then strip_prefix p' s' else None
  | String _ _, EmptyString => None
  end.

Definition invalid_signature : JsError := mkError "Error" "invalid signature string".

Definition recover (msg signature : string) : outcome string :=
  match strip_prefix "0x" signature with
  | None => Thrown invalid_signature
  | Some body =>
      match strip_prefix msg body with
      | Some rest =>
          match strip_prefix "/" rest with
          | Some key => Returned (address_of_key key)
          | None => Returned (address_of_key "")
          end
      | None => Returned (address_of_key "")
      end
  end.

Definition verifyMessage (message signature : JsValue) : outcome string :=
  match message, signature with
  | JStr msg, JStr sig => recover msg sig
  | _, _ => Thrown invalid_signature
  end.

Definition signMessage (privateKey : JsValue) (provider : option Handle) (msg : string)
  : outcome string :=
  match privateKey with
  | JStr key => Returned (sign key msg)
  | _ => Thrown (mkError "Error" "invalid private key")
  end.

Definition stringify (data : JsValue) : outcome JsValue :=
  match data with
  | JUndefined => Returned JUndefined
  | JNull => Returned (JStr "null")
  | JBool true => Returned (JStr "true")
  | JBool false => Returned (JStr "false")
  | JStr s => Returned (JStr ("'" +:+ s +:+ "'"))
  | JBigInt _ => Thrown (mkError "TypeError" "Do not know how to serialize a BigInt")
  | _ => Returned (JStr "{}")
  end.

Definition utf8 (v : JsValue) : outcome string :=
  match v with
  | JStr s => Returned s
  | _ => Thrown (mkError "Error" "invalid string value")
  end.

#[global] Instance ethers : EthersLib := {
  parseUnits := Reference.parseUnits;
  JSON_stringify := stringify;
  toUtf8Bytes := utf8;
  abi_encode_bytes := fun bytes => Returned ("0x" +:+ bytes);
  serializeTransaction := fun _ => Returned "0x02";
  verifyMessage := Reference.verifyMessage;
  Wallet_signMessage := signMessage
}.

End Reference.

Module Mock.

(** A scripted backend. *)
Record World : Type := {
  next_handle : Handle;     (* the next client, provider or contract *)
  head : Z;                 (* number of the latest block *)
  relative_tags : bool;     (* a negative block tag counts back from the head
                               and stops at genesis; otherwise it finds nothing *)
  reported_metrics : JsObject;
  base_fee : Z;
  clock : Z
}.

Definition block_at (n : Z) : Block :=
  {| block_number := num_of_Z n;
     block_hash := "0x" +:+ pretty n;
     block_timestamp := num_of_Z (1700000000 + 12 * n);
     block_transactions := [] |}.

Definition resolve_tag (w : World) (blockTag : JsValue) : option Block :=
  match blockTag with
  | JStr tag => if String.eqb tag "latest" then Some (block_at (head w)) else None
  | JNum n =>
      match num_to_Z n with
      | Some i =>
          if (i <? 0)%Z then
            if relative_tags w then Some (block_at (Z.max 0 (head w + i))) else None
          else if (i <=? head w)%Z then Some (block_at i)
          else None
      | None => None
      end
  | _ => None
  end.

Definition fresh_handle {X} (k : Handle -> X) (w : World) : X * World :=
  (k (next_handle w),
   {| next_handle := S (next_handle w); head := head w;
      relative_tags := relative_tags w; reported_metrics := reported_metrics w;
      base_fee := base_fee w; clock := clock w |}).

Definition tick (w : World) : World :=
  {| next_handle := next_handle w; head := head w;
     relative_tags := relative_tags w; reported_metrics := reported_metrics w;
     base_fee := base_fee w; clock := (clock w + 5)%Z |}.

Definition backend : Handler World :=
  fun X e w =>
    match e in BackendE X return outcome X * World with
    | LoggerInfo _ _ => (Returned tt, w)
    | LoggerError _ _ _ => (Returned tt, w)
    | PoANew _ => fresh_handle Returned w
    | PoAInitialize _ => (Returned tt, w)
    | PoAConnect _ _ => (Returned tt, w)
    | PoADisconnect _ => (Returned tt, w)
    | PoAPrepareTransaction _ tx => (Returned (JObj tx), w)
    | PoASubmitTransaction _ _ => (Returned "0xabc", w)
    | PoACallContract _ _ => (Returned JNull, w)
    | PoAGetBlock _ n => (Returned (block_at (default 0%Z (num_to_Z n))), w)
    | PoAGetNetworkMetrics _ => (Returned (reported_metrics w), w)
    | PoAGenerateProof _ data =>
        (Returned {| proof_data := data; proof_signature := JStr "0x" |}, w)
    | PoAVerifyProof _ _ => (Returned true, w)
    | SdkNew _ => fresh_handle Returned w
    | SdkInitialize _ => (Returned tt, w)
    | SdkConnect _ => (Returned tt, w)
    | SdkDisconnect _ => (Returned tt, w)
    | SdkPrepareTransaction _ tx => (Returned (JObj tx), w)
    | SdkSubmitTransaction _ _ => (Returned "0xabc", w)
    | SdkCallContract _ _ => (Returned JNull, w)
    | SdkGetBlock _ n => (Returned (block_at (default 0%Z (num_to_Z n))), w)
    | SdkGetNetworkMetrics _ => (Returned (reported_metrics w), w)
    | SdkGenerateProof _ data =>
        (Returned {| proof_data := data; proof_signature := JStr "0x" |}, w)
    | SdkVerifyProof _ _ => (Returned true, w)
    | SdkGetBaseFee _ => (Returned (base_fee w), w)
    | ProviderNew _ => fresh_handle Returned w
    | ProviderReady _ => (Returned tt, w)
    | ProviderGetFeeData _ =>
        (Returned {| maxFeePerGas := Some (2 * base_fee w)%Z;
                     maxPriorityFeePerGas := None |}, w)
    | ProviderSendTransaction _ _ => (Returned "0xabc", w)
    | ProviderGetBlock _ blockTag => (Returned (resolve_tag w blockTag), w)
    | ProviderGetGasPrice _ => (Returned (base_fee w), w)
    | ProviderGetNetwork _ =>
        (Returned (JObj {[ "name" := JStr "mock"; "chainId" := JBigInt 1337 ]}), w)
    | ProviderGetBlockNumber _ => (Returned (num_of_Z (head w)), w)
    | ContractNew _ _ _ => fresh_handle Returned w
    | ContractInvoke _ _ _ => (Returned JNull, w)
    | DateNow => (Returned (num_of_Z (clock w)), tick w)
    end.

(** A backend that refuses every call. *)
Definition refused : JsError := Error "connect ECONNREFUSED".

Definition unreachable : Handler unit :=
  fun X _ w => (Thrown refused, w).

(** A chain that has just started: 51 blocks. *)
Definition young_chain (relative : bool) : World :=
  {| next_handle := 1; head := 50; relative_tags := relative;
     reported_metrics := ∅; base_fee := 7; clock := 1000 |}.

(** A backend whose metrics report has no latency figure. *)
Definition partial_report : World :=
  {| next_handle := 1; head := 5000; relative_tags := true;
     reported_metrics :=
       {[ "averageBlockTime" := JNum (num_of_Z 5);
          "transactionsPerSecond" := JNum (num_of_Z 120);
          "activeNodes" := JNum (num_of_Z 4) ]};
     base_fee := 7; clock := 1000 |}.

Definition config : NetworkConfig :=
  {| endpoints := JArr [JStr "local"];
     timeout := JNum (num_of_Z 5000);
     network := JStr "testnet";
     version := JStr "7.0.0";
     rpc := JStr "http://localhost:8545";
     verifier := JStr (Reference.address_of_key "k1");
     privateKey := JStr "k1" |}.

Definition other_config : NetworkConfig :=
  {| endpoints := JArr [JStr "remote-a"; JStr "remote-b"];
     timeout := JNum (num_of_Z 30000);
     network := JStr "mainnet";
     version := JStr "7.0.0";
     rpc := JStr "https://rpc.example.org";
     verifier := JUndefined;
     privateKey := JUndefined |}.

Definition transaction (g : Z) : Transaction :=
  {| estimatedGas := num_of_Z g;
     tx_fields := {[ "to" := JStr "0xfeed"; "data" := JStr "0x" ]} |}.

End Mock.

(** ** Vocabulary of the properties *)

(** [round(1.1 × g)] for an integer [g], halves rounded up, as a number. *)
Definition rounded_gas_limit (g : Z) : float64 :=
  num_of_Z ((22 * g + 10) / 20).

(** A signature with the byte at position [i] replaced by [b]. *)
Fixpoint set_byte (i : nat) (b : ascii) (s : string) : string :=
  match s, i with
  | EmptyString, _ => EmptyString
  | String _ rest, O => String b rest
  | String a rest, S j => String a (set_byte j b rest)
  end.

(** The transaction object of the first [prepareTransaction] call. *)
Definition prepared_request (c : Call) : option JsObject :=
  match c with
  | MkCall e =>
      match e with
      | PoAPrepareTransaction _ tx => Some tx
      | SdkPrepareTransaction _ tx => Some tx
      | _ => None
      end
  end.

Fixpoint first_prepared (calls : list Call) : option JsObject :=
  match calls with
  | [] => None
  | c :: rest =>
      match prepared_request c with
      | Some tx => Some tx
      | None => first_prepared rest
      end
  end.

(** The options of every [connect] call made on a PoA client. *)
Definition connect_options (c : Call) : option JsObject :=
  match c with
  | MkCall e =>
      match e with
      | PoAConnect _ options => Some options
      | _ => None
      end
  end.

(** Adapters with their client field set. *)
Definition poa_with (config : NetworkConfig) (c : Handle) : CustomPoAAdapter.t :=
  {| CustomPoAAdapter.config := config; CustomPoAAdapter.client := Some c |}.

Definition polygon_with (config : NetworkConfig) (c : Handle) : PolygonAdapter.t :=
  {| PolygonAdapter.config := config; PolygonAdapter.sdk := Some c |}.

Definition ethereum_with (config : NetworkConfig) (p : Handle) : EthereumAdapter.t :=
  {| EthereumAdapter.config := config; EthereumAdapter.provider := Some p |}.

(** The metrics object the PoA and Polygon adapters build from a report. *)
Definition metrics_from (nodes : string) (report : JsObject) : JsObject :=
  {[ "blockTime" := get_prop report "averageBlockTime";
     "tps" := get_prop report "transactionsPerSecond";
     "nodeCount" := get_prop report nodes;
     "latency" := get_prop report "networkLatency" ]}.

(** ** Callers *)

(** One call through the interface. *)
Inductive Invocation : Type :=
| CallInitialize (config : NetworkConfig)
| CallConnect
| CallDisconnect
| CallOperation (op : Operation).

Definition invoke `{EthersLib} (i : Invocation) : Method Adapter unit :=
  match i with
  | CallInitialize config => initialize config
  | CallConnect => connect
  | CallDisconnect => disconnect
  | CallOperation op => (_ <- perform op ;; ret tt)
  end.

(** A caller that makes its calls one after the other on the same adapter and
    carries on when one of them throws. *)
Fixpoint session `{EthersLib} {W} (h : Handler W) (calls : list Invocation)
    (this : Adapter) (w : W) : Adapter * W :=
  match calls with
  | [] => (this, w)
  | i :: rest =>
      session h rest (this_after h (invoke i) this w) (world_after h (invoke i) this w)
  end.

Definition is_initialize (i : Invocation) : bool :=
  match i with
  | CallInitialize _ => true
  | _ => false
  end.

(** The class of the object behind the interface. *)
Definition class_of (a : Adapter) : ChainType :=
  match a with
  | PoA _ => POA
  | Polygon _ => POLYGON
  | Ethereum _ => ETHEREUM
  end.

(** The same object with another config in its [config] field. *)
Definition with_config (a : Adapter) (config : NetworkConfig) : Adapter :=
  match a with
  | PoA a =>
      PoA {| CustomPoAAdapter.config := config;
             CustomPoAAdapter.client := CustomPoAAdapter.client a |}
  | Polygon a =>
      Polygon {| PolygonAdapter.config := config;
                 PolygonAdapter.sdk := PolygonAdapter.sdk a |}
  | Ethereum a =>
      Ethereum {| EthereumAdapter.config := config;
                  EthereumAdapter.provider := EthereumAdapter.provider a |}
  end.

(** The same object with another value in its client field. *)
Definition with_client (a : Adapter) (c : option Handle) : Adapter :=
  match a with
  | PoA a =>
      PoA {| CustomPoAAdapter.config := CustomPoAAdapter.config a;
             CustomPoAAdapter.client := c |}
  | Polygon a =>
      Polygon {| PolygonAdapter.config := PolygonAdapter.config a;
                 PolygonAdapter.sdk := c |}
  | Ethereum a =>
      Ethereum {| EthereumAdapter.config := EthereumAdapter.config a;
                  EthereumAdapter.provider := c |}
  end.

(** The constructor call [initialize(config)] makes, by class. *)
Definition constructor_call (k : ChainType) (config : NetworkConfig) : BackendE Handle :=
  match k with
  | POA => PoANew config
  | POLYGON => SdkNew {[ "network" := network config;
                         "version" := version config;
                         "rpc" := rpc config ]}
  | ETHEREUM => ProviderNew (rpc config)
  end.

(** The call [connect()] makes on a client, by class. *)
Definition connect_call (a : Adapter) (c : Handle) : BackendE unit :=
  match a with
  | PoA a => PoAConnect c {[ "endpoints" := endpoints (CustomPoAAdapter.config a);
                             "timeout" := timeout (CustomPoAAdapter.config a) ]}
  | Polygon _ => SdkConnect c
  | Ethereum _ => ProviderReady c
  end.

(** The errors handed to [logger.error], in order. *)
Definition logged_error (c : Call) : option JsError :=
  match c with
  | MkCall e =>
      match e with
      | LoggerError _ _ error => Some error
      | _ => None
      end
  end.

Definition logged_errors (calls : list Call) : list JsError :=
  omap logged_error calls.

Definition is_disconnect (c : Call) : bool :=
  match c with
  | MkCall e =>
      match e with
      | PoADisconnect _ => true
      | SdkDisconnect _ => true
      | _ => false
      end
  end.

Definition is_submission (c : Call) : bool :=
  match c with
  | MkCall e =>
      match e with
      | PoASubmitTransaction _ _ => true
      | SdkSubmitTransaction _ _ => true
      | ProviderSendTransaction _ _ => true
      | _ => false
      end
  end.

(** The operations of the Ethereum adapter whose result depends on the
    config: they sign with its key or compare with its verifier. *)
Definition uses_config (k : ChainType) (op : Operation) : bool :=
  match k, op with
  | ETHEREUM, OpGenerateProof _ => true
  | ETHEREUM, OpVerifyProof _ => true
  | _, _ => false
  end.

Module Fault.

(** The scripted backend with some of its calls refused. *)
Definition when (refuse : forall X, BackendE X -> bool) : Handler Mock.World :=
  fun X e w => if refuse X e then (Thrown Mock.refused, w) else Mock.backend X e w.

Definition client_initialize (X : Type) (e : BackendE X) : bool :=
  match e with
  | PoAInitialize _ => true
  | SdkInitialize _ => true
  | ProviderReady _ => true
  | _ => false
  end.

Definition preparation (X : Type) (e : BackendE X) : bool :=
  match e with
  | PoAPrepareTransaction _ _ => true
  | SdkPrepareTransaction _ _ => true
  | _ => false
  end.

End Fault.

Module Steady.

(** The scripted backend on a long chain, where only the clock moves: every
    query has the same answer whenever it is asked. *)
Definition at_time (t : Z) : Mock.World :=
  {| Mock.next_handle := 1; Mock.head := 5000; Mock.relative_tags := true;
     Mock.reported_metrics := ∅; Mock.base_fee := 7; Mock.clock := t |}.

Definition backend : Handler Z :=
  fun X e t =>
    let answer := Mock.backend X e (at_time t) in
    (fst answer, Mock.clock (snd answer)).

End Steady.

(** * Properties *)

(** ** The runtime *)

(** [lit_1_1] is a binary64 value, and no other is nearer to 11/10: its
    distance to 11/10 is below half a unit in the last place. *)
Lemma lit_1_1_nearest :
  valid_binary prec64 emax64 lit_1_1 = true
  /\ exists m, lit_1_1 = S754_finite false m (-52)
               /\ (Z.abs (10 * Z.pos m - 11 * 2 ^ 52) * 2 < 10)%Z.
Proof.
  split; [vm_compute; reflexivity|].
  eexists. split; [reflexivity|]. vm_compute. reflexivity.
Qed.

Lemma strip_prefix_app (p r : string) :
  Reference.strip_prefix p (p +:+ r) = Some r.
Proof.
  induction p as [|a p IH]; simpl.
  - reflexivity.
  - rewrite Ascii.eqb_refl. exact IH.
Qed.

Lemma reference_sign_recover (key msg : string) :
  Reference.recover msg (Reference.sign key msg) = Returned (Reference.address_of_key key).
Proof.
  unfold Reference.recover, Reference.sign.
  rewrite (strip_prefix_app "0x"), (strip_prefix_app msg), (strip_prefix_app "/").
  reflexivity.
Qed.

(** Running a method step by step. *)
Ltac run_method :=
  unfold result_of, this_after, world_after, calls_of; cbn.

Lemma str_strict_eq_refl (s : string) : str_strict_eq s (JStr s) = true.
Proof. apply String.eqb_refl. Qed.

Lemma str_strict_eq_neq (s t : string) : s <> t -> str_strict_eq s (JStr t) = false.
Proof. intros Hne. apply String.eqb_neq. exact Hne. Qed.

(** ** The factory *)

Lemma token_unrecognized (chainType : string) :
  (forall k, chainType <> token k) ->
  String.eqb chainType "POA" = false
  /\ String.eqb chainType "POLYGON" = false
  /\ String.eqb chainType "ETHEREUM" = false.
Proof.
  intros Hno. repeat split; apply String.eqb_neq.
  - exact (Hno POA).
  - exact (Hno POLYGON).
  - exact (Hno ETHEREUM).
Qed.

Lemma createAdapter_token (k : ChainType) (config : NetworkConfig) (heap : Heap) :
  ChainAdapterFactory.createAdapter (token k) config heap
  = alloc (constructed k config) heap.
Proof. destruct k; reflexivity. Qed.

(** C8, as the code has it.  [createAdapter] with one of the tokens ['POA'],
    ['POLYGON'], ['ETHEREUM'] allocates one new object of the matching class,
    built from
    the given config and with its client field unset; the reference it returns
    was not in use, and every object already in the store is left as it was.
    With any other token it throws the plain
    [new Error("Unsupported chain type: " + chainType)] and the store is
    unchanged: nothing is constructed. *)
Theorem createAdapter_dispatch (chainType : string) (config : NetworkConfig)
    (heap : Heap) :
  (forall k, chainType = token k ->
     exists r heap',
       ChainAdapterFactory.createAdapter chainType config heap = (Returned r, heap')
       /\ heap !! r = None
       /\ heap' !! r = Some (constructed k config)
       /\ client_of (constructed k config) = None
       /\ config_of (constructed k config) = config
       /\ (forall r' a, heap !! r' = Some a -> heap' !! r' = Some a)
       /\ List.length heap' = S (List.length heap))
  /\ ((forall k, chainType <> token k) ->
      ChainAdapterFactory.createAdapter chainType config heap
      = (Thrown (Error ("Unsupported chain type: " +:+ chainType)), heap)).
Proof.
  split.
  - intros k ->. rewrite createAdapter_token. unfold alloc.
    exists (List.length heap), (heap ++ [constructed k config])%list.
    split; [reflexivity|].
    split; [apply lookup_ge_None_2; lia|].
    split; [rewrite lookup_app_r by lia; rewrite Nat.sub_diag; reflexivity|].
    split; [destruct k; reflexivity|].
    split; [destruct k; reflexivity|].
    split.
    + intros r' a Hr'. rewrite lookup_app_l; [exact Hr'|].
      eapply lookup_lt_Some; exact Hr'.
    + rewrite length_app. simpl. lia.
  - intros Hno. destruct (token_unrecognized chainType Hno) as (H1 & H2 & H3).
    unfold ChainAdapterFactory.createAdapter. rewrite H1, H2, H3. reflexivity.
Qed.

Lemma createAdapter_dispatch_witness :
  (exists r heap',
     ChainAdapterFactory.createAdapter "POLYGON" Mock.config
       [PoA (CustomPoAAdapter.new Mock.other_config)] = (Returned r, heap')
     /\ heap' !! r = Some (Polygon (PolygonAdapter.new Mock.config)))
  /\ ChainAdapterFactory.createAdapter "BITCOIN" Mock.config []
     = (Thrown (Error "Unsupported chain type: BITCOIN"), []).
Proof.
  split.
  - destruct (proj1 (createAdapter_dispatch "POLYGON" Mock.config
                       [PoA (CustomPoAAdapter.new Mock.other_config)]) POLYGON eq_refl)
      as (r & heap' & Hcreate & _ & Hnew & _).
    exists r, heap'. split; [exact Hcreate | exact Hnew].
  - apply (proj2 (createAdapter_dispatch "BITCOIN" Mock.config [])).
    intros k; destruct k; discriminate.
Defined.

(** C8 does not hold as stated: what an unrecognized token raises is a plain
    [Error], whose name is not [UnsupportedBackendError]; the code declares no
    error class of its own. *)
Lemma unsupported_token_raises_plain_error :
  ChainAdapterFactory.createAdapter "SOLANA" Mock.config []
  = (Thrown (mkError "Error" "Unsupported chain type: SOLANA"), [])
  /\ err_name (mkError "Error" "Unsupported chain type: SOLANA")
     <> "UnsupportedBackendError".
Proof. split; [reflexivity | discriminate]. Qed.

(** No caching: two calls in a row, even with the same token and config,
    yield two different references. *)
Lemma createAdapter_twice_distinct (k1 k2 : ChainType) (c1 c2 : NetworkConfig)
    (heap : Heap) :
  let first := ChainAdapterFactory.createAdapter (token k1) c1 heap in
  let second := ChainAdapterFactory.createAdapter (token k2) c2 (snd first) in
  exists r1 r2, fst first = Returned r1 /\ fst second = Returned r2 /\ r1 <> r2.
Proof.
  cbn zeta. rewrite !createAdapter_token. unfold alloc. cbn [fst snd].
  eexists _, _. split; [reflexivity|]. split; [reflexivity|].
  rewrite length_app. simpl. lia.
Qed.

(** Tokens are matched exactly: the lower-case name is not recognized. *)
Example createAdapter_case_sensitive :
  ChainAdapterFactory.createAdapter "poa" Mock.config []
  = (Thrown (Error "Unsupported chain type: poa"), []).
Proof. reflexivity. Qed.

(** ** Lifecycle *)

(** C10.  The PoA adapter keeps the config given to its constructor and hands
    the config given to [initialize] to the client's constructor only.  So
    after [new CustomPoAAdapter(c1)] and [initialize(c2)], whatever the backend
    answers, [connect()] forwards [c1.endpoints] and [c1.timeout] to the client
    [initialize] created; if creating the client failed there is no client and
    [connect()] reaches no backend at all. *)
Theorem poa_connect_uses_constructor_config {W} (h : Handler W) (w : W)
    (c1 c2 : NetworkConfig) :
  let fresh := CustomPoAAdapter.new c1 in
  let this := this_after h (CustomPoAAdapter.initialize c2) fresh w in
  let w' := world_after h (CustomPoAAdapter.initialize c2) fresh w in
  CustomPoAAdapter.config this = c1
  /\ head (calls_of h (CustomPoAAdapter.initialize c2) fresh w)
     = Some (MkCall (PoANew c2))
  /\ match fst (h _ (PoANew c2) w) with
     | Returned c =>
         calls_of h CustomPoAAdapter.connect this w'
         = [MkCall (PoAConnect c {[ "endpoints" := endpoints c1;
                                    "timeout" := timeout c1 ]})]
     | Thrown _ =>
         calls_of h CustomPoAAdapter.connect this w' = []
     end.
Proof.
  run_method.
  destruct (h Handle (PoANew c2) w) as [[c|e] w1]; cbn.
  - destruct (h unit (PoAInitialize c) w1) as [[[]|e] w2]; cbn.
    + destruct (h unit (LoggerInfo _ _) w2) as [[[]|e] w3]; cbn.
      * auto.
      * destruct (h unit (LoggerError _ _ _) w3) as [[[]|e'] w4]; cbn; auto.
    + destruct (h unit (LoggerError _ _ _) w2) as [[[]|e'] w3]; cbn; auto.
  - destruct (h unit (LoggerError _ _ _) w1) as [[[]|e'] w2]; cbn; auto.
Qed.

(** With two different configs, the options that reach the client are the
    constructor's. *)
Example poa_connect_two_configs :
  let this := this_after Mock.backend (CustomPoAAdapter.initialize Mock.other_config)
                (CustomPoAAdapter.new Mock.config) Mock.partial_report in
  let w' := world_after Mock.backend (CustomPoAAdapter.initialize Mock.other_config)
              (CustomPoAAdapter.new Mock.config) Mock.partial_report in
  map connect_options (calls_of Mock.backend CustomPoAAdapter.connect this w')
  = [Some {[ "endpoints" := JArr [JStr "local"];
             "timeout" := JNum (num_of_Z 5000) ]}].
Proof. vm_compute. reflexivity. Qed.

(** Once the client field is set, the PoA and Polygon adapters hand every
    read-only operation straight to the client, connected or not: what the
    caller gets is the client's answer. *)
Section Forwarding.

Context {W : Type} (h : Handler W) (w : W) (config : NetworkConfig) (c : Handle).

Lemma poa_forwards :
  (forall call, result_of h (CustomPoAAdapter.callContract call) (poa_with config c) w
                = fst (h _ (PoACallContract c call) w))
  /\ (forall n, result_of h (CustomPoAAdapter.getBlock n) (poa_with config c) w
                = fst (h _ (PoAGetBlock c n) w))
  /\ (forall d, result_of h (CustomPoAAdapter.generateProof d) (poa_with config c) w
                = fst (h _ (PoAGenerateProof c d) w)).
Proof. repeat split; intros; run_method; reflexivity. Qed.

Lemma polygon_forwards :
  (forall call, result_of h (PolygonAdapter.callContract call) (polygon_with config c) w
                = fst (h _ (SdkCallContract c call) w))
  /\ (forall n, result_of h (PolygonAdapter.getBlock n) (polygon_with config c) w
                = fst (h _ (SdkGetBlock c n) w))
  /\ (forall d, result_of h (PolygonAdapter.generateProof d) (polygon_with config c) w
                = fst (h _ (SdkGenerateProof c d) w)).
Proof. repeat split; intros; run_method; reflexivity. Qed.

End Forwarding.

Lemma connect_keeps_this `{EthersLib} {W} (h : Handler W) (w : W) (a : Adapter) :
  this_after h (@connect Adapter _) a w = a.
Proof.
  destruct a as [[config [c|]]|[config [c|]]|[config [c|]]]; run_method; reflexivity.
Qed.

(** C1, as the code has it.  No adapter records whether [connect()] has
    succeeded: [connect()] leaves the adapter object as it was, so no method
    can test it.  What makes an operational method fail early is the unset
    client field: on an adapter that was never initialized, every operational
    method of the PoA and Polygon adapters, and [submitTransaction],
    [getBlock] and [getMetrics] of the Ethereum adapter, throw the runtime's
    [TypeError] for reading a property of [undefined], whatever the backend,
    without reaching it and without changing the adapter. *)
Theorem unconnected_operations `{EthersLib} {W} (h : Handler W) (w : W)
    (k : ChainType) (config : NetworkConfig) (op : Operation) :
  reads_client_first k op = true ->
  let fresh := constructed k config in
  (exists prop,
      result_of h (perform op) fresh w = Thrown (TypeError_read "undefined" prop))
  /\ calls_of h (perform op) fresh w = []
  /\ this_after h (perform op) fresh w = fresh
  /\ world_after h (perform op) fresh w = w
  /\ (forall (a : Adapter) (w' : W), this_after h (@connect Adapter _) a w' = a).
Proof.
  intros Hreads fresh.
  split; [|split; [|split; [|split]]].
  - destruct k, op; try discriminate Hreads; run_method; eexists; reflexivity.
  - destruct k, op; try discriminate Hreads; run_method; reflexivity.
  - destruct k, op; try discriminate Hreads; run_method; reflexivity.
  - destruct k, op; try discriminate Hreads; run_method; reflexivity.
  - intros a w'. apply connect_keeps_this.
Qed.

Lemma unconnected_operations_witness :
  reads_client_first POLYGON OpGetMetrics = true
  /\ exists prop,
       result_of Mock.backend (perform (S := Adapter) OpGetMetrics)
         (constructed POLYGON Mock.config) Mock.partial_report
       = Thrown (TypeError_read "undefined" prop).
Proof.
  split; [reflexivity|].
  exact (proj1 (unconnected_operations Mock.backend Mock.partial_report POLYGON
                  Mock.config OpGetMetrics eq_refl)).
Defined.

(** C1 does not hold as stated: an Ethereum adapter straight from the factory,
    never initialized and never connected, signs a payload and verifies the
    proof; [verifyProof] returns [true] and reaches no backend. *)
Lemma unconnected_verifyProof_returns :
  let proof := {| proof_data := JStr "0x'doc'";
                  proof_signature := JStr "0x0x'doc'/k1" |} in
  ChainAdapterFactory.createAdapter "ETHEREUM" Mock.config []
  = (Returned 0, [Ethereum (EthereumAdapter.new Mock.config)])
  /\ result_of Mock.backend (perform (S := Adapter) (OpGenerateProof (JStr "doc")))
       (Ethereum (EthereumAdapter.new Mock.config)) Mock.partial_report
     = Returned (ResProof proof)
  /\ result_of Mock.backend (perform (S := Adapter) (OpVerifyProof proof))
       (Ethereum (EthereumAdapter.new Mock.config)) Mock.partial_report
     = Returned (ResBool true)
  /\ calls_of Mock.backend (perform (S := Adapter) (OpVerifyProof proof))
       (Ethereum (EthereumAdapter.new Mock.config)) Mock.partial_report = [].
Proof. repeat split; vm_compute; reflexivity. Qed.

(** C7, as the code has it.  The Ethereum adapter's [disconnect()] does
    nothing: it returns from every state, however often it is called.  The PoA
    and Polygon adapters forward [disconnect()] to their client each time: the
    call returns or throws as the client's [disconnect] does, and when the
    client field was never set it throws the runtime's [TypeError].  The
    adapter object is never changed. *)
Theorem disconnect_outcome {W} (h : Handler W) (w : W) :
  (forall this : EthereumAdapter.t,
      result_of h EthereumAdapter.disconnect this w = Returned tt
      /\ result_of h (EthereumAdapter.disconnect ;;; EthereumAdapter.disconnect)%method
           this w = Returned tt
      /\ calls_of h EthereumAdapter.disconnect this w = []
      /\ this_after h EthereumAdapter.disconnect this w = this)
  /\ (forall this : CustomPoAAdapter.t,
        match CustomPoAAdapter.client this with
        | Some c =>
            result_of h CustomPoAAdapter.disconnect this w
            = fst (h _ (PoADisconnect c) w)
            /\ calls_of h CustomPoAAdapter.disconnect this w
               = [MkCall (PoADisconnect c)]
        | None =>
            result_of h CustomPoAAdapter.disconnect this w
            = Thrown (TypeError_read "undefined" "disconnect")
            /\ calls_of h CustomPoAAdapter.disconnect this w = []
        end
        /\ this_after h CustomPoAAdapter.disconnect this w = this)
  /\ (forall this : PolygonAdapter.t,
        match PolygonAdapter.sdk this with
        | Some c =>
            result_of h PolygonAdapter.disconnect this w
            = fst (h _ (SdkDisconnect c) w)
            /\ calls_of h PolygonAdapter.disconnect this w
               = [MkCall (SdkDisconnect c)]
        | None =>
            result_of h PolygonAdapter.disconnect this w
            = Thrown (TypeError_read "undefined" "disconnect")
            /\ calls_of h PolygonAdapter.disconnect this w = []
        end
        /\ this_after h PolygonAdapter.disconnect this w = this).
Proof.
  split; [|split].
  - intros this. run_method. auto.
  - intros [config [c|]]; run_method; auto.
  - intros [config [c|]]; run_method; auto.
Qed.

(** C7 does not hold as stated: on a PoA adapter straight from the factory,
    [disconnect()] throws; and on an initialized one it throws when the
    client's [disconnect] does, the second time as the first. *)
Lemma poa_disconnect_before_initialize_raises :
  ChainAdapterFactory.createAdapter "POA" Mock.config []
  = (Returned 0, [PoA (CustomPoAAdapter.new Mock.config)])
  /\ result_of Mock.backend (@disconnect Adapter _)
       (PoA (CustomPoAAdapter.new Mock.config)) Mock.partial_report
     = Thrown (mkError "TypeError"
                 "Cannot read properties of undefined (reading 'disconnect')")
  /\ result_of Mock.unreachable
       (CustomPoAAdapter.disconnect ;;; CustomPoAAdapter.disconnect)%method
       (poa_with Mock.config 0) tt
     = Thrown Mock.refused.
Proof. repeat split; vm_compute; reflexivity. Qed.

(** ** Fees and gas *)

(** C6.  On the Polygon adapter, when the SDK reports the base fee [b], the
    max fee per gas is exactly [2 * b]; the priority fee is
    [parseUnits('30', 'gwei')], computed without reaching the backend, so it is
    the same for every [b]; and these are the two fee fields of the object
    [submitTransaction] hands to [prepareTransaction], next to the
    transaction's own fields. *)
Theorem polygon_fee_strategy `{EthersLib} {W} (h : Handler W) (w w1 : W)
    (config : NetworkConfig) (s : Handle) (b : Z) (tx : Transaction) :
  h _ (SdkGetBaseFee s) w = (Returned b, w1) ->
  let this := polygon_with config s in
  result_of h PolygonAdapter.getOptimalMaxFeePerGas this w = Returned (2 * b)%Z
  /\ (forall (this' : PolygonAdapter.t) (w' : W),
        result_of h PolygonAdapter.getOptimalPriorityFee this' w'
        = Returned (parseUnits "30" "gwei")
        /\ calls_of h PolygonAdapter.getOptimalPriorityFee this' w' = [])
  /\ exists req,
       first_prepared (calls_of h (PolygonAdapter.submitTransaction tx) this w)
       = Some req
       /\ req !! "maxFeePerGas" = Some (JBigInt (2 * b))
       /\ req !! "maxPriorityFeePerGas" = Some (JBigInt (parseUnits "30" "gwei"))
       /\ (forall k, k <> "maxFeePerGas" -> k <> "maxPriorityFeePerGas" ->
             req !! k = spread_tx tx !! k).
Proof.
  intros Hfee this. run_method. rewrite Hfee. cbn.
  split; [f_equal; lia|].
  split; [intros; split; reflexivity|].
  eexists. split; [reflexivity|].
  replace (b * 2)%Z with (2 * b)%Z by lia.
  split; [|split].
  - rewrite lookup_insert_ne by discriminate. apply lookup_insert_eq.
  - apply lookup_insert_eq.
  - intros k Hk1 Hk2. rewrite !lookup_insert_ne by congruence. reflexivity.
Qed.

Lemma polygon_fee_strategy_witness :
  result_of Mock.backend PolygonAdapter.getOptimalMaxFeePerGas
    (polygon_with Mock.config 0) Mock.partial_report = Returned 14%Z
  /\ result_of Mock.backend PolygonAdapter.getOptimalPriorityFee
       (polygon_with Mock.config 0) Mock.partial_report = Returned 30000000000%Z.
Proof.
  destruct (polygon_fee_strategy Mock.backend Mock.partial_report Mock.partial_report
              Mock.config 0 7 (Mock.transaction 100) eq_refl) as (Hmax & Hprio & _).
  split; [exact Hmax | exact (proj1 (Hprio _ _))].
Defined.

(** C3, as the code has it.  The object the PoA adapter hands to the client's
    [prepareTransaction] has [gasLimit] equal to the binary64 product
    [estimatedGas * 1.1], not rounded, and [gasPrice] equal to the string
    ['0']; every other field is the transaction's own. *)
Theorem poa_prepared_transaction {W} (h : Handler W) (w : W)
    (config : NetworkConfig) (c : Handle) (tx : Transaction) :
  let this := poa_with config c in
  exists req rest,
    calls_of h (CustomPoAAdapter.submitTransaction tx) this w
    = MkCall (PoAPrepareTransaction c req) :: rest
    /\ req !! "gasLimit" = Some (JNum (num_mul (estimatedGas tx) lit_1_1))
    /\ req !! "gasPrice" = Some (JStr "0")
    /\ (forall k, k <> "gasLimit" -> k <> "gasPrice" -> req !! k = spread_tx tx !! k).
Proof.
  intros this. run_method. eexists _, _. split; [reflexivity|].
  split; [|split].
  - apply lookup_insert_eq.
  - rewrite lookup_insert_ne by discriminate. apply lookup_insert_eq.
  - intros k Hk1 Hk2. rewrite !lookup_insert_ne by congruence. reflexivity.
Qed.

(** C3 does not hold as stated.  For [estimatedGas = 5] the gas limit handed
    to the client is 5.5 (6192449487634432 * 2^-50), which is no integer, while
    [round(1.1 * 5)] is 6; for [estimatedGas = 100] it is
    110.00000000000001, not 110. *)
Lemma poa_gas_limit_not_rounded :
  let calls := calls_of Mock.backend
                 (CustomPoAAdapter.submitTransaction (Mock.transaction 5))
                 (poa_with Mock.config 0) Mock.partial_report in
  (first_prepared calls ≫= (fun req => req !! "gasLimit"))
  = Some (JNum (S754_finite false 6192449487634432 (-50)))
  /\ num_to_Z (S754_finite false 6192449487634432 (-50)) = None
  /\ rounded_gas_limit 5 = num_of_Z 6
  /\ CustomPoAAdapter.calculateOptimalGasLimit (Mock.transaction 5)
     <> rounded_gas_limit 5
  /\ CustomPoAAdapter.calculateOptimalGasLimit (Mock.transaction 100)
     = S754_finite false 7740561859543041 (-46)
  /\ rounded_gas_limit 100 = S754_finite false 7740561859543040 (-46).
Proof.
  repeat split; try (vm_compute; reflexivity); vm_compute; discriminate.
Qed.

(** ** Metrics *)

(** C9, as the code has it.  The PoA and Polygon adapters copy the four
    figures out of the backend's report, field by field, whenever the backend
    call returns (a figure missing from the report reads as [undefined]); when
    the backend call throws, [getMetrics] throws that same error. *)
Theorem getMetrics_passthrough {W} (h : Handler W) (w : W) (config : NetworkConfig)
    (c : Handle) :
  result_of h CustomPoAAdapter.getMetrics (poa_with config c) w
  = match fst (h _ (PoAGetNetworkMetrics c) w) with
    | Returned report => Returned (metrics_from "activeNodes" report)
    | Thrown e => Thrown e
    end
  /\ result_of h PolygonAdapter.getMetrics (polygon_with config c) w
     = match fst (h _ (SdkGetNetworkMetrics c) w) with
       | Returned report => Returned (metrics_from "activeValidators" report)
       | Thrown e => Thrown e
       end.
Proof.
  split; run_method.
  - destruct (h _ (PoAGetNetworkMetrics c) w) as [[report|e] w']; reflexivity.
  - destruct (h _ (SdkGetNetworkMetrics c) w) as [[report|e] w']; reflexivity.
Qed.

(** Whatever the Ethereum adapter's [getMetrics] returns has a gas price and
    no throughput figure. *)
Lemma ethereum_metrics_fields {W} (h : Handler W) (w : W) (this : EthereumAdapter.t)
    (m : JsObject) :
  result_of h EthereumAdapter.getMetrics this w = Returned m ->
  m !! "tps" = None /\ is_Some (m !! "gasPrice").
Proof.
  destruct this as [config [p|]]; run_method.
  2: { discriminate. }
  repeat match goal with
         | |- context [h ?X ?e ?w'] =>
             is_var w'; destruct (h X e w') as [[?|?] ?]; cbn
         | |- context [deref_null ?o _] => is_var o; destruct o; cbn
         end; try discriminate.
  intros [= <-]. split; [reflexivity|]. eexists.
  rewrite lookup_insert_ne by discriminate. apply lookup_insert_eq.
Qed.

(** C9 does not hold as stated.  A PoA backend whose report has no latency
    figure gets its report passed on with [latency] undefined, not an error;
    and on a long healthy chain the Ethereum adapter returns metrics without a
    throughput figure. *)
Lemma partial_metrics_returned :
  get_prop (Mock.reported_metrics Mock.partial_report) "networkLatency" = JUndefined
  /\ (exists m,
        result_of Mock.backend CustomPoAAdapter.getMetrics (poa_with Mock.config 0)
          Mock.partial_report = Returned m
        /\ m !! "latency" = Some JUndefined
        /\ m !! "blockTime" = Some (JNum (num_of_Z 5)))
  /\ (exists m,
        result_of Mock.backend EthereumAdapter.getMetrics (ethereum_with Mock.config 0)
          Mock.partial_report = Returned m
        /\ m !! "tps" = None
        /\ m !! "blockTime" = Some (JNum (num_of_Z 12))).
Proof.
  split; [vm_compute; reflexivity|].
  split; eexists; (split; [vm_compute; reflexivity|]); split; vm_compute; reflexivity.
Qed.

(** The block-time computation has no guard for a short chain: whatever the
    number of the latest block, it asks for the block 100 below it and divides
    the timestamp difference of what comes back by 100. *)
Lemma average_block_time_unguarded {W} (h : Handler W) (w w1 w2 : W)
    (config : NetworkConfig) (p : Handle) (latest old : Block) :
  h _ (ProviderGetBlock p (JStr "latest")) w = (Returned (Some latest), w1) ->
  h _ (ProviderGetBlock p (JNum (num_sub (block_number latest) (num_of_Z 100)))) w1
  = (Returned (Some old), w2) ->
  result_of h EthereumAdapter.calculateAverageBlockTime (ethereum_with config p) w
  = Returned (num_div (num_sub (block_timestamp latest) (block_timestamp old))
                (num_of_Z 100)).
Proof.
  intros Hlatest Hold. run_method. rewrite Hlatest. cbn. rewrite Hold. reflexivity.
Qed.

(** C2.  On a chain of 51 blocks (latest block 50, one block every 12 s) the
    Ethereum adapter asks the provider for block -50.  A provider that counts a
    negative tag back from the head and stops at genesis answers with block 0,
    and the adapter returns an average block time of 6 s; [getMetrics]
    returns, also on an adapter taken through [initialize] and [connect].  A provider that finds no such block answers [null], and the
    adapter throws the runtime's [TypeError].  In neither case is a
    metrics-unavailable error raised. *)
Theorem young_chain_average_block_time :
  let this := ethereum_with Mock.config 0 in
  match result_of Mock.backend
          (initialize Mock.config ;;; connect ;;; getMetrics)%method
          (Ethereum (EthereumAdapter.new Mock.config)) (Mock.young_chain true)
  with
  | Returned m => m !! "blockTime"
  | Thrown _ => None
  end = Some (JNum (num_of_Z 6))
  /\ calls_of Mock.backend EthereumAdapter.calculateAverageBlockTime this
    (Mock.young_chain true)
  = [MkCall (ProviderGetBlock 0 (JStr "latest"));
     MkCall (ProviderGetBlock 0 (JNum (num_of_Z (-50))))]
  /\ result_of Mock.backend EthereumAdapter.calculateAverageBlockTime this
       (Mock.young_chain true) = Returned (num_of_Z 6)
  /\ is_thrown (result_of Mock.backend EthereumAdapter.getMetrics this
                  (Mock.young_chain true)) = false
  /\ result_of Mock.backend EthereumAdapter.calculateAverageBlockTime this
       (Mock.young_chain false) = Thrown (TypeError_read "null" "timestamp")
  /\ result_of Mock.backend EthereumAdapter.getMetrics this (Mock.young_chain false)
     = Thrown (TypeError_read "null" "timestamp").
Proof. repeat split; vm_compute; reflexivity. Qed.

(** ** Proofs *)

(** C5, as the code has it.  The Ethereum adapter's [verifyProof] reaches no
    backend and does not change the adapter.  It returns a boolean exactly
    when the library's signer recovery returns: [true] when the recovered
    signer is the configured verifier, [false] otherwise.  When recovery
    throws, as it does on a malformed signature, [verifyProof] throws that same
    error.  The PoA and Polygon adapters hand the proof to their client and
    return or throw as the client does. *)
Theorem verifyProof_outcome `{EthersLib} {W} (h : Handler W) (w : W)
    (this : EthereumAdapter.t) (proof : ProofFormat) :
  result_of h (EthereumAdapter.verifyProof proof) this w
  = match verifyMessage (proof_data proof) (proof_signature proof) with
    | Returned signer =>
        Returned (str_strict_eq signer (verifier (EthereumAdapter.config this)))
    | Thrown e => Thrown e
    end
  /\ calls_of h (EthereumAdapter.verifyProof proof) this w = []
  /\ this_after h (EthereumAdapter.verifyProof proof) this w = this
  /\ (forall config c,
        result_of h (CustomPoAAdapter.verifyProof proof) (poa_with config c) w
        = fst (h _ (PoAVerifyProof c proof) w))
  /\ (forall config c,
        result_of h (PolygonAdapter.verifyProof proof) (polygon_with config c) w
        = fst (h _ (SdkVerifyProof c proof) w)).
Proof.
  split; [|split; [|split; [|split]]].
  - run_method.
    destruct (verifyMessage (proof_data proof) (proof_signature proof)); reflexivity.
  - run_method.
    destruct (verifyMessage (proof_data proof) (proof_signature proof)); reflexivity.
  - run_method.
    destruct (verifyMessage (proof_data proof) (proof_signature proof)); reflexivity.
  - intros config c. run_method. reflexivity.
  - intros config c. run_method. reflexivity.
Qed.

(** C5 does not hold as stated: a proof whose signature is missing, or is not
    a signature, makes [verifyProof] throw. *)
Lemma malformed_proof_raises :
  result_of Mock.backend
    (EthereumAdapter.verifyProof
       {| proof_data := JStr "0x'doc'"; proof_signature := JUndefined |})
    (ethereum_with Mock.config 0) Mock.partial_report
  = Thrown Reference.invalid_signature
  /\ result_of Mock.backend
       (EthereumAdapter.verifyProof
          {| proof_data := JStr "0x'doc'"; proof_signature := JStr "not a signature" |})
       (ethereum_with Mock.config 0) Mock.partial_report
     = Thrown Reference.invalid_signature.
Proof. split; vm_compute; reflexivity. Qed.

(** C4, as the code has it.  Let the payload [d] serialize to [serialized],
    let the configured key sign it with [signature], and let the signer the
    library recovers from that signature be the configured verifier.  Then
    [generateProof(d)] returns the proof made of the two, and [verifyProof] of
    that proof returns [true].  For any other signature over the same data,
    [verifyProof] returns [false] when the library recovers a different signer
    from it, and throws when the library's recovery throws. *)
Theorem proof_round_trip `{EthersLib} {W} (h : Handler W) (w : W)
    (this : EthereumAdapter.t) (d json : JsValue)
    (bytes serialized signature signer : string) :
  JSON_stringify d = Returned json ->
  toUtf8Bytes json = Returned bytes ->
  abi_encode_bytes bytes = Returned serialized ->
  Wallet_signMessage (privateKey (EthereumAdapter.config this))
    (EthereumAdapter.provider this) serialized = Returned signature ->
  verifyMessage (JStr serialized) (JStr signature) = Returned signer ->
  verifier (EthereumAdapter.config this) = JStr signer ->
  let proof := {| proof_data := JStr serialized; proof_signature := JStr signature |} in
  result_of h (EthereumAdapter.generateProof d) this w = Returned proof
  /\ this_after h (EthereumAdapter.generateProof d) this w = this
  /\ (forall w', result_of h (EthereumAdapter.verifyProof proof) this w' = Returned true)
  /\ (forall w' signature' signer',
        verifyMessage (JStr serialized) signature' = Returned signer' ->
        signer' <> signer ->
        result_of h (EthereumAdapter.verifyProof
                       {| proof_data := JStr serialized; proof_signature := signature' |})
          this w' = Returned false)
  /\ (forall w' signature' e,
        verifyMessage (JStr serialized) signature' = Thrown e ->
        result_of h (EthereumAdapter.verifyProof
                       {| proof_data := JStr serialized; proof_signature := signature' |})
          this w' = Thrown e).
Proof.
  intros Hjson Hbytes Hser Hsign Hrec Hver proof.
  split; [|split; [|split; [|split]]].
  - run_method. rewrite Hjson. cbn. rewrite Hbytes. cbn. rewrite Hser. cbn.
    rewrite Hsign. reflexivity.
  - run_method. rewrite Hjson. cbn. rewrite Hbytes. cbn. rewrite Hser. cbn.
    rewrite Hsign. reflexivity.
  - intros w'. run_method. rewrite Hrec. cbn.
    rewrite Hver, str_strict_eq_refl. reflexivity.
  - intros w' signature' signer' Hrec' Hne. run_method. rewrite Hrec'. cbn.
    rewrite Hver, str_strict_eq_neq by exact Hne. reflexivity.
  - intros w' signature' e Hrec'. run_method. rewrite Hrec'. reflexivity.
Qed.

Lemma proof_round_trip_witness :
  let this := ethereum_with Mock.config 0 in
  let proof := {| proof_data := JStr "0x'doc'";
                  proof_signature := JStr "0x0x'doc'/k1" |} in
  result_of Mock.backend (EthereumAdapter.generateProof (JStr "doc")) this
    Mock.partial_report = Returned proof
  /\ result_of Mock.backend (EthereumAdapter.verifyProof proof) this
       Mock.partial_report = Returned true
  /\ result_of Mock.backend
       (EthereumAdapter.verifyProof
          {| proof_data := JStr "0x'doc'"; proof_signature := JStr "0x0x'doc'/k2" |})
       this Mock.partial_report = Returned false.
Proof.
  destruct (proof_round_trip (H := Reference.ethers) Mock.backend Mock.partial_report
              (ethereum_with Mock.config 0) (JStr "doc") (JStr "'doc'")
              "'doc'" "0x'doc'" "0x0x'doc'/k1" "addr:k1"
              eq_refl eq_refl eq_refl eq_refl eq_refl eq_refl)
    as (Hgen & _ & Hok & Hother & _).
  split; [exact Hgen|].
  split; [exact (Hok _)|].
  apply (Hother _ (JStr "0x0x'doc'/k2") "addr:k2"); [reflexivity | discriminate].
Defined.

(** C4 does not hold as stated: replacing the first byte of the signature
    [generateProof] made makes [verifyProof] throw rather than return
    [false]. *)
Lemma mutated_signature_raises :
  let this := ethereum_with Mock.config 0 in
  result_of Mock.backend (EthereumAdapter.generateProof (JStr "doc")) this
    Mock.partial_report
  = Returned {| proof_data := JStr "0x'doc'";
                proof_signature := JStr "0x0x'doc'/k1" |}
  /\ set_byte 0 "1" "0x0x'doc'/k1" = "1x0x'doc'/k1"
  /\ result_of Mock.backend
       (EthereumAdapter.verifyProof
          {| proof_data := JStr "0x'doc'";
             proof_signature := JStr (set_byte 0 "1" "0x0x'doc'/k1") |})
       this Mock.partial_report
     = Thrown Reference.invalid_signature.
Proof. repeat split; vm_compute; reflexivity. Qed.

(** * Further properties of the adapters *)

(** Case analysis on the backend's next answer, in program order. *)
Ltac next_answer h :=
  match goal with
  | |- context [h ?X ?e ?w] =>
      is_var w; destruct (h X e w) as [[?|?] ?]; cbn
  end.

Ltac next_null :=
  match goal with
  | |- context [deref_null ?o _] => is_var o; destruct o; cbn
  end.

Ltac next_library :=
  match goal with
  | |- context [match ?x with Returned _ => _ | Thrown _ => _ end] =>
      destruct x; cbn
  end.

Ltac all_answers h := repeat (first [next_answer h | next_null]).

(** Use what is known of the backend's next answer. *)
Ltac known_answer h Hyp :=
  match goal with
  | |- context [h ?X ?e ?w] =>
      is_var w;
      let E := fresh "E" in
      let r := fresh "r" in
      let w' := fresh "w" in
      pose proof (Hyp w) as E;
      destruct (h X e w) as [r w']; cbn in E; subst r; cbn
  end.

(** ** initialize *)

Section Initialize.

Context `{EthersLib} {W : Type} (h : Handler W).

(** X1.  [initialize(config)] stores the client in the adapter as soon as its
    constructor returns, before the client is initialized: afterwards the
    client field holds the new client whenever the constructor returned, also
    when [initialize] then failed, and is what it was when the constructor
    threw.  The adapter's own config and class are never touched. *)
Theorem initialize_client_field (w : W) (a : Adapter) (config : NetworkConfig) :
  client_of (this_after h (initialize config) a w)
  = match fst (h _ (constructor_call (class_of a) config) w) with
    | Returned c => Some c
    | Thrown _ => client_of a
    end
  /\ config_of (this_after h (initialize config) a w) = config_of a
  /\ class_of (this_after h (initialize config) a w) = class_of a.
Proof.
  destruct a as [[cfg cl]|[cfg cl]|[cfg cl]]; run_method; all_answers h; auto.
Qed.

(** X2.  With a logger that does not throw, [initialize] logs an error
    exactly when it fails, once, and the error it logs is the one it throws;
    when it succeeds nothing is logged as an error. *)
Theorem initialize_logs_what_it_throws (w : W) (a : Adapter) (config : NetworkConfig) :
  (forall tag msg e w', fst (h _ (LoggerError tag msg e) w') = Returned tt) ->
  let calls := calls_of h (initialize config) a w in
  match result_of h (initialize config) a w with
  | Returned _ => logged_errors calls = []
  | Thrown e => logged_errors calls = [e]
  end.
Proof.
  intros Hlog.
  destruct a as [[cfg cl]|[cfg cl]|[cfg cl]]; run_method.
  all: repeat match goal with
       | |- context [h ?X ?e ?w] =>
           is_var w;
           lazymatch e with
           | LoggerError ?t ?m ?err =>
               let E := fresh "E" in
               pose proof (Hlog t m err w) as E;
               destruct (h X e w) as [[[]|?] ?]; cbn in E; [|discriminate E]; cbn
           | _ => destruct (h X e w) as [[?|?] ?]; cbn
           end
       end; reflexivity.
Qed.

(** X3.  [initialize] does not look at the client the adapter already has and
    never disconnects it: its result, its calls and its effect on the backend
    are the same whatever the client field held. *)
Theorem initialize_replaces_client (w : W) (a : Adapter) (config : NetworkConfig)
    (old : option Handle) :
  result_of h (initialize config) (with_client a old) w
  = result_of h (initialize config) a w
  /\ calls_of h (initialize config) (with_client a old) w
     = calls_of h (initialize config) a w
  /\ world_after h (initialize config) (with_client a old) w
     = world_after h (initialize config) a w
  /\ forallb (fun c => negb (is_disconnect c)) (calls_of h (initialize config) a w) = true.
Proof.
  destruct a as [[cfg cl]|[cfg cl]|[cfg cl]]; run_method; all_answers h; auto.
Qed.

End Initialize.

Lemma initialize_logs_what_it_throws_witness :
  result_of (Fault.when Fault.client_initialize) (initialize Mock.config)
    (constructed POLYGON Mock.other_config) Mock.partial_report = Thrown Mock.refused
  /\ logged_errors (calls_of (Fault.when Fault.client_initialize) (initialize Mock.config)
                      (constructed POLYGON Mock.other_config) Mock.partial_report)
     = [Mock.refused].
Proof.
  pose proof (initialize_logs_what_it_throws (Fault.when Fault.client_initialize)
                Mock.partial_report (constructed POLYGON Mock.other_config) Mock.config
                (fun tag msg e w' => eq_refl)) as Hlogged.
  cbv zeta in Hlogged.
  assert (Hres : result_of (Fault.when Fault.client_initialize) (initialize Mock.config)
                   (constructed POLYGON Mock.other_config) Mock.partial_report
                 = Thrown Mock.refused) by (vm_compute; reflexivity).
  rewrite Hres in Hlogged. split; [exact Hres | exact Hlogged].
Defined.

(** A failed [initialize] leaves a client behind: the next [getBlock] goes to
    it instead of failing for want of a client. *)
Example half_initialized_adapter_forwards :
  let h := Fault.when Fault.client_initialize in
  let fresh := constructed POA Mock.config in
  let this := this_after h (initialize Mock.config) fresh Mock.partial_report in
  result_of h (initialize Mock.config) fresh Mock.partial_report = Thrown Mock.refused
  /\ client_of this = Some 1
  /\ result_of h (getBlock (num_of_Z 7)) this Mock.partial_report
     = Returned (Mock.block_at 7).
Proof. repeat split; vm_compute; reflexivity. Qed.

(** ** connect and the life of the adapter object *)

Section Lifecycle.

Context `{EthersLib} {W : Type} (h : Handler W).

(** X4.  [connect()] on an adapter without a client throws the runtime's
    [TypeError] and reaches no backend; with a client it makes exactly one
    call, the client's connect (for the PoA client with the endpoints and
    timeout of the adapter's config, for the Polygon SDK and the provider with
    no argument), and returns or throws as that call does. *)
Theorem connect_outcome (w : W) (a : Adapter) :
  match client_of a with
  | Some c =>
      result_of h connect a w = fst (h _ (connect_call a c) w)
      /\ calls_of h connect a w = [MkCall (connect_call a c)]
  | None =>
      (exists prop, result_of h connect a w = Thrown (TypeError_read "undefined" prop))
      /\ calls_of h connect a w = []
  end.
Proof.
  destruct a as [[cfg [c|]]|[cfg [c|]]|[cfg [c|]]]; run_method;
    try (split; [eexists|]; reflexivity).
  all: next_answer h; auto.
Qed.

Lemma operation_keeps_this (w : W) (a : Adapter) (op : Operation) :
  this_after h (perform op) a w = a.
Proof.
  destruct a as [[cfg [c|]]|[cfg [c|]]|[cfg [c|]]], op; run_method;
    all_answers h; try reflexivity.
  all: try (destruct (serializeTransaction _); cbn; all_answers h; reflexivity).
  all: repeat next_library; reflexivity.
Qed.

Lemma invoke_keeps_this (w : W) (a : Adapter) (i : Invocation) :
  is_initialize i = false -> this_after h (invoke i) a w = a.
Proof.
  destruct i as [config| | |op]; [discriminate|..]; intros _.
  - destruct a as [[cfg [c|]]|[cfg [c|]]|[cfg [c|]]]; run_method; all_answers h; reflexivity.
  - destruct a as [[cfg [c|]]|[cfg [c|]]|[cfg [c|]]]; run_method; all_answers h; reflexivity.
  - pose proof (operation_keeps_this w a op) as Hop.
    unfold this_after in *. cbn [invoke]. unfold bind.
    revert Hop. generalize (perform op a). intros p.
    induction p as [[r s]|X e k IH] in w |- *; cbn.
    + destruct r; cbn; auto.
    + intros Hk. apply IH. exact Hk.
Qed.

Lemma invoke_keeps_config (w : W) (a : Adapter) (i : Invocation) :
  config_of (this_after h (invoke i) a w) = config_of a
  /\ class_of (this_after h (invoke i) a w) = class_of a.
Proof.
  destruct (is_initialize i) eqn:Hi.
  - destruct i; try discriminate.
    destruct a as [[cfg cl]|[cfg cl]|[cfg cl]]; run_method; all_answers h; auto.
  - rewrite invoke_keeps_this by exact Hi. auto.
Qed.

(** X5.  The config given to the constructor is read-only: after any series
    of calls through the interface, whatever each of them returned or threw
    and whatever configs [initialize] was given, the adapter still has the
    config and the class it was constructed with. *)
Theorem session_keeps_config (calls : list Invocation) (a : Adapter) (w : W) :
  config_of (fst (session h calls a w)) = config_of a
  /\ class_of (fst (session h calls a w)) = class_of a.
Proof.
  induction calls as [|i rest IH] in a, w |- *; cbn [session].
  - auto.
  - destruct (IH (this_after h (invoke i) a w) (world_after h (invoke i) a w)) as [Hc Hk].
    destruct (invoke_keeps_config w a i) as [Hc' Hk'].
    split; congruence.
Qed.

(** X6.  Only [initialize] writes to the adapter: a series of calls with no
    [initialize] among them leaves the adapter object exactly as it was, so an
    adapter that was never initialized stays without a client however often
    [connect], [disconnect] or the operations are called. *)
Theorem session_without_initialize (calls : list Invocation) (a : Adapter) (w : W) :
  forallb (fun i => negb (is_initialize i)) calls = true ->
  fst (session h calls a w) = a.
Proof.
  induction calls as [|i rest IH] in a, w |- *; cbn [session forallb].
  - reflexivity.
  - intros Hall. apply andb_prop in Hall as [Hi Hrest].
    apply negb_true_iff in Hi.
    rewrite invoke_keeps_this by exact Hi.
    apply IH. exact Hrest.
Qed.

(** X7.  An operation that starts by reading the client reaches the backend
    exactly when the adapter has a client. *)
Theorem operation_reaches_backend_iff_initialized (w : W) (a : Adapter) (op : Operation) :
  reads_client_first (class_of a) op = true ->
  calls_of h (perform op) a w = [] <-> client_of a = None.
Proof.
  intros Hreads.
  destruct a as [[cfg [c|]]|[cfg [c|]]|[cfg [c|]]], op; try discriminate Hreads;
    run_method; split; intros Hx; try reflexivity; try discriminate Hx.
Qed.

(** X8.  No operational method sends anything of the adapter's config to the
    backend: with any other config in its place the same calls are made and
    the backend is left in the same state.  The result is the same too, except
    for the Ethereum adapter's [generateProof] and [verifyProof], which sign
    with the config's key and compare with its verifier. *)
Theorem operations_ignore_config (w : W) (a : Adapter) (config : NetworkConfig)
    (op : Operation) :
  calls_of h (perform op) (with_config a config) w = calls_of h (perform op) a w
  /\ world_after h (perform op) (with_config a config) w = world_after h (perform op) a w
  /\ (uses_config (class_of a) op = false ->
      result_of h (perform op) (with_config a config) w = result_of h (perform op) a w).
Proof.
  destruct a as [[cfg [c|]]|[cfg [c|]]|[cfg [c|]]], op; run_method;
    all_answers h; repeat next_library; all_answers h;
    repeat split; try reflexivity; try discriminate.
Qed.

End Lifecycle.

Lemma session_without_initialize_witness :
  fst (session Mock.backend
         [CallConnect; CallOperation OpGetMetrics; CallDisconnect;
          CallOperation (OpGetBlock (num_of_Z 3))]
         (constructed POA Mock.config) Mock.partial_report)
  = constructed POA Mock.config.
Proof.
  apply (session_without_initialize Mock.backend
           [CallConnect; CallOperation OpGetMetrics; CallDisconnect;
            CallOperation (OpGetBlock (num_of_Z 3))]).
  reflexivity.
Defined.

Lemma operation_reaches_backend_iff_initialized_witness :
  calls_of Mock.backend (perform (S := Adapter) OpGetMetrics)
    (constructed ETHEREUM Mock.config) Mock.partial_report = [].
Proof.
  apply (operation_reaches_backend_iff_initialized Mock.backend Mock.partial_report
           (constructed ETHEREUM Mock.config) OpGetMetrics eq_refl).
  reflexivity.
Defined.

Lemma operations_ignore_config_witness :
  result_of Mock.backend (perform (S := Adapter) (OpGetBlock (num_of_Z 3)))
    (with_config (PoA (poa_with Mock.config 0)) Mock.other_config) Mock.partial_report
  = result_of Mock.backend (perform (S := Adapter) (OpGetBlock (num_of_Z 3)))
      (PoA (poa_with Mock.config 0)) Mock.partial_report.
Proof.
  apply (operations_ignore_config Mock.backend Mock.partial_report
           (PoA (poa_with Mock.config 0)) Mock.other_config (OpGetBlock (num_of_Z 3))).
  reflexivity.
Defined.

(** ** Submitting a transaction *)

Section Submission.

Context `{EthersLib} {W : Type} (h : Handler W).

(** X9.  The PoA and Polygon adapters submit exactly what [prepareTransaction]
    returned, and hand back what the client's [submitTransaction] answers: its
    identifier, or the error it throws.  The PoA adapter makes these two calls
    and no other; the Polygon adapter asks for the base fee first. *)
Theorem prepared_transaction_forwarded (config : NetworkConfig) (c : Handle)
    (tx : Transaction) (prepared : JsValue) :
  (forall (w w1 : W) (req : JsObject),
      first_prepared (calls_of h (CustomPoAAdapter.submitTransaction tx)
                        (poa_with config c) w) = Some req ->
      h _ (PoAPrepareTransaction c req) w = (Returned prepared, w1) ->
      result_of h (CustomPoAAdapter.submitTransaction tx) (poa_with config c) w
      = fst (h _ (PoASubmitTransaction c prepared) w1)
      /\ calls_of h (CustomPoAAdapter.submitTransaction tx) (poa_with config c) w
         = [MkCall (PoAPrepareTransaction c req);
            MkCall (PoASubmitTransaction c prepared)])
  /\ (forall (w w0 w1 : W) (b : Z) (req : JsObject),
        h _ (SdkGetBaseFee c) w = (Returned b, w0) ->
        first_prepared (calls_of h (PolygonAdapter.submitTransaction tx)
                          (polygon_with config c) w) = Some req ->
        h _ (SdkPrepareTransaction c req) w0 = (Returned prepared, w1) ->
        result_of h (PolygonAdapter.submitTransaction tx) (polygon_with config c) w
        = fst (h _ (SdkSubmitTransaction c prepared) w1)
        /\ calls_of h (PolygonAdapter.submitTransaction tx) (polygon_with config c) w
           = [MkCall (SdkGetBaseFee c);
              MkCall (SdkPrepareTransaction c req);
              MkCall (SdkSubmitTransaction c prepared)]).
Proof.
  split.
  - intros w w1 req. run_method. intros [= <-] Hprep. rewrite Hprep. cbn. auto.
  - intros w w0 w1 b req Hfee. run_method. rewrite Hfee. cbn.
    intros [= <-] Hprep. rewrite Hprep. cbn. auto.
Qed.

(** X10.  When the client cannot prepare transactions, the PoA and Polygon
    adapters' [submitTransaction] throws and submits nothing. *)
Theorem failed_preparation_submits_nothing (w : W) (a : Adapter) (tx : Transaction) :
  (forall X (e : BackendE X) w', Fault.preparation X e = true ->
                                 is_thrown (fst (h X e w')) = true) ->
  class_of a <> ETHEREUM ->
  is_thrown (result_of h (submitTransaction tx) a w) = true
  /\ forallb (fun c => negb (is_submission c)) (calls_of h (submitTransaction tx) a w)
     = true.
Proof.
  intros Hfail Hclass.
  destruct a as [[cfg [c|]]|[cfg [c|]]|[cfg [c|]]]; try congruence; run_method; auto.
  - match goal with |- context [h ?X ?e w] =>
      pose proof (Hfail X e w eq_refl) as E; destruct (h X e w) as [[?|?] ?]; cbn in E;
        [discriminate E|]; cbn; auto end.
  - next_answer h; auto.
    match goal with |- context [h ?X ?e ?w'] =>
      pose proof (Hfail X e w' eq_refl) as E; destruct (h X e w') as [[?|?] ?]; cbn in E;
        [discriminate E|]; cbn; auto end.
Qed.

(** X11.  The Ethereum adapter asks the provider for its fee data twice: the
    max fee of the transaction comes from the first answer and the priority fee
    from the second, each replaced by its fallback when missing.  The
    transaction is tagged with type 2 and keeps its other fields; it is
    serialized and sent, and the caller gets what the provider answers.  When
    serialization throws, that error is thrown and nothing is sent. *)
Theorem ethereum_submit_pipeline (w w1 w2 : W) (config : NetworkConfig) (p : Handle)
    (tx : Transaction) (fees1 fees2 : FeeData) :
  h _ (ProviderGetFeeData p) w = (Returned fees1, w1) ->
  h _ (ProviderGetFeeData p) w1 = (Returned fees2, w2) ->
  let this := ethereum_with config p in
  let maxFee := bigint_or (maxFeePerGas fees1) (parseUnits "50" "gwei") in
  let priorityFee := bigint_or (maxPriorityFeePerGas fees2) (parseUnits "2" "gwei") in
  exists preparedTx : JsObject,
    preparedTx !! "maxFeePerGas" = Some (JBigInt maxFee)
    /\ preparedTx !! "maxPriorityFeePerGas" = Some (JBigInt priorityFee)
    /\ preparedTx !! "type" = Some (JNum (num_of_Z 2))
    /\ (forall k, k <> "maxFeePerGas" -> k <> "maxPriorityFeePerGas" -> k <> "type" ->
          preparedTx !! k = spread_tx tx !! k)
    /\ match serializeTransaction preparedTx with
       | Returned signed =>
           result_of h (EthereumAdapter.submitTransaction tx) this w
           = fst (h _ (ProviderSendTransaction p signed) w2)
           /\ calls_of h (EthereumAdapter.submitTransaction tx) this w
              = [MkCall (ProviderGetFeeData p); MkCall (ProviderGetFeeData p);
                 MkCall (ProviderSendTransaction p signed)]
       | Thrown e =>
           result_of h (EthereumAdapter.submitTransaction tx) this w = Thrown e
           /\ calls_of h (EthereumAdapter.submitTransaction tx) this w
              = [MkCall (ProviderGetFeeData p); MkCall (ProviderGetFeeData p)]
       end.
Proof.
  intros H1 H2 this maxFee priorityFee.
  exists (<["type" := JNum (num_of_Z 2)]>
            (<["maxPriorityFeePerGas" := JBigInt priorityFee]>
               (<["maxFeePerGas" := JBigInt maxFee]> (spread_tx tx)))).
  split; [|split; [|split; [|split]]].
  5: { subst maxFee priorityFee. run_method. rewrite H1. cbn. rewrite H2. cbn.
       match goal with |- context [serializeTransaction ?o] =>
         destruct (serializeTransaction o) as [signed|e] end; cbn; auto. }
  - rewrite !lookup_insert_ne by discriminate. apply lookup_insert_eq.
  - rewrite lookup_insert_ne by discriminate. apply lookup_insert_eq.
  - apply lookup_insert_eq.
  - intros k K1 K2 K3. rewrite !lookup_insert_ne by congruence. reflexivity.
Qed.

(** X12.  The Ethereum adapter takes the provider's max fee and priority fee
    when they are there and not zero; when the provider reports [null] or
    zero, it falls back to 50 gwei for the max fee and 2 gwei for the priority
    fee. *)
Theorem ethereum_fee_fallback (w w1 : W) (config : NetworkConfig) (p : Handle)
    (fees : FeeData) :
  h _ (ProviderGetFeeData p) w = (Returned fees, w1) ->
  let this := ethereum_with config p in
  (forall v, maxFeePerGas fees = Some v -> v <> 0%Z ->
     result_of h EthereumAdapter.getOptimalMaxFeePerGas this w = Returned v)
  /\ (maxFeePerGas fees = None \/ maxFeePerGas fees = Some 0%Z ->
      result_of h EthereumAdapter.getOptimalMaxFeePerGas this w
      = Returned (parseUnits "50" "gwei"))
  /\ (forall v, maxPriorityFeePerGas fees = Some v -> v <> 0%Z ->
        result_of h EthereumAdapter.getOptimalPriorityFee this w = Returned v)
  /\ (maxPriorityFeePerGas fees = None \/ maxPriorityFeePerGas fees = Some 0%Z ->
      result_of h EthereumAdapter.getOptimalPriorityFee this w
      = Returned (parseUnits "2" "gwei")).
Proof.
  intros Hfees this. run_method. rewrite Hfees. cbn.
  repeat split.
  - intros v -> Hv. cbn. apply Z.eqb_neq in Hv. rewrite Hv. reflexivity.
  - intros [-> | ->]; reflexivity.
  - intros v -> Hv. cbn. apply Z.eqb_neq in Hv. rewrite Hv. reflexivity.
  - intros [-> | ->]; reflexivity.
Qed.

End Submission.

Lemma prepared_transaction_forwarded_witness :
  result_of Mock.backend (PolygonAdapter.submitTransaction (Mock.transaction 100))
    (polygon_with Mock.config 0) Mock.partial_report
  = Returned "0xabc".
Proof.
  destruct (prepared_transaction_forwarded Mock.backend Mock.config 0
              (Mock.transaction 100)
              (JObj (<["maxPriorityFeePerGas" := JBigInt 30000000000]>
                       (<["maxFeePerGas" := JBigInt 14]>
                          (spread_tx (Mock.transaction 100))))))
    as [_ Hpolygon].
  destruct (Hpolygon Mock.partial_report Mock.partial_report Mock.partial_report 7%Z
              (<["maxPriorityFeePerGas" := JBigInt 30000000000]>
                 (<["maxFeePerGas" := JBigInt 14]> (spread_tx (Mock.transaction 100))))
              eq_refl eq_refl eq_refl) as [Hresult _].
  exact Hresult.
Defined.

Lemma failed_preparation_submits_nothing_witness :
  is_thrown (result_of (Fault.when Fault.preparation)
               (submitTransaction (Mock.transaction 100))
               (PoA (poa_with Mock.config 0)) Mock.partial_report) = true
  /\ forallb (fun c => negb (is_submission c))
       (calls_of (Fault.when Fault.preparation)
          (submitTransaction (Mock.transaction 100))
          (PoA (poa_with Mock.config 0)) Mock.partial_report) = true.
Proof.
  apply (failed_preparation_submits_nothing (Fault.when Fault.preparation)).
  - intros X e w' Hprep. unfold Fault.when. rewrite Hprep. reflexivity.
  - discriminate.
Defined.

Lemma ethereum_submit_pipeline_witness :
  result_of Mock.backend (EthereumAdapter.submitTransaction (Mock.transaction 100))
    (ethereum_with Mock.config 0) Mock.partial_report = Returned "0xabc"
  /\ calls_of Mock.backend (EthereumAdapter.submitTransaction (Mock.transaction 100))
       (ethereum_with Mock.config 0) Mock.partial_report
     = [MkCall (ProviderGetFeeData 0); MkCall (ProviderGetFeeData 0);
        MkCall (ProviderSendTransaction 0 "0x02")].
Proof.
  destruct (ethereum_submit_pipeline (H := Reference.ethers) Mock.backend
              Mock.partial_report Mock.partial_report Mock.partial_report
              Mock.config 0 (Mock.transaction 100)
              {| maxFeePerGas := Some 14%Z; maxPriorityFeePerGas := None |}
              {| maxFeePerGas := Some 14%Z; maxPriorityFeePerGas := None |}
              eq_refl eq_refl) as (preparedTx & _ & _ & _ & _ & Hsend).
  exact Hsend.
Defined.

Lemma ethereum_fee_fallback_witness :
  result_of Mock.backend EthereumAdapter.getOptimalMaxFeePerGas
    (ethereum_with Mock.config 0) Mock.partial_report = Returned 14%Z
  /\ result_of Mock.backend EthereumAdapter.getOptimalPriorityFee
       (ethereum_with Mock.config 0) Mock.partial_report = Returned 2000000000%Z.
Proof.
  destruct (ethereum_fee_fallback (H := Reference.ethers) Mock.backend
              Mock.partial_report Mock.partial_report Mock.config 0
              {| maxFeePerGas := Some 14%Z; maxPriorityFeePerGas := None |} eq_refl)
    as (Hmax & _ & _ & Hpriority).
  split.
  - apply Hmax; [reflexivity | discriminate].
  - apply Hpriority. left. reflexivity.
Defined.

(** ** The Ethereum adapter's reads *)

Section Ethereum.

Context `{EthersLib} {W : Type} (h : Handler W).

(** X13.  The Ethereum adapter's [getBlock] makes one provider call and hands
    back the provider's block with its number, hash, timestamp and
    transactions unchanged.  A block the provider does not have ([null]) makes
    it throw the runtime's [TypeError]; an error of the provider is passed
    on. *)
Theorem ethereum_getBlock_outcome (w : W) (config : NetworkConfig) (p : Handle)
    (n : float64) :
  result_of h (EthereumAdapter.getBlock n) (ethereum_with config p) w
  = match fst (h _ (ProviderGetBlock p (JNum n)) w) with
    | Returned (Some block) => Returned block
    | Returned None => Thrown (TypeError_read "null" "number")
    | Thrown e => Thrown e
    end
  /\ calls_of h (EthereumAdapter.getBlock n) (ethereum_with config p) w
     = [MkCall (ProviderGetBlock p (JNum n))].
Proof.
  run_method.
  destruct (h _ (ProviderGetBlock p (JNum n)) w) as [[[[num hash ts txs]|]|e] w1]; cbn; auto.
Qed.

(** X14.  The Ethereum adapter's [callContract] builds a contract object from
    the call's address and interface and the adapter's provider, set or not,
    on every call, and invokes the named method with the call's parameters.
    When building the contract throws, no method is invoked. *)
Theorem ethereum_callContract_outcome (w : W) (this : EthereumAdapter.t)
    (call : ContractCall) :
  let construct := ContractNew (address call) (abi call) (EthereumAdapter.provider this) in
  match h _ construct w with
  | (Returned contract, w1) =>
      result_of h (EthereumAdapter.callContract call) this w
      = fst (h _ (ContractInvoke contract (method call) (params call)) w1)
      /\ calls_of h (EthereumAdapter.callContract call) this w
         = [MkCall construct;
            MkCall (ContractInvoke contract (method call) (params call))]
  | (Thrown e, _) =>
      result_of h (EthereumAdapter.callContract call) this w = Thrown e
      /\ calls_of h (EthereumAdapter.callContract call) this w = [MkCall construct]
  end.
Proof.
  intros construct. subst construct. run_method.
  destruct (h _ (ContractNew _ _ _) w) as [[contract|e] w1]; cbn; auto.
Qed.

(** X15.  The block-time computation asks for the latest block and then for
    the block 100 numbers below it.  A [null] answer to either makes it throw
    the runtime's [TypeError] (after the first, the second block is not asked
    for); a provider error is passed on; otherwise the result is the
    timestamp difference divided by 100. *)
Theorem average_block_time_outcome (w : W) (config : NetworkConfig) (p : Handle) :
  let this := ethereum_with config p in
  match h _ (ProviderGetBlock p (JStr "latest")) w with
  | (Thrown e, _) =>
      result_of h EthereumAdapter.calculateAverageBlockTime this w = Thrown e
      /\ calls_of h EthereumAdapter.calculateAverageBlockTime this w
         = [MkCall (ProviderGetBlock p (JStr "latest"))]
  | (Returned None, _) =>
      result_of h EthereumAdapter.calculateAverageBlockTime this w
      = Thrown (TypeError_read "null" "number")
      /\ calls_of h EthereumAdapter.calculateAverageBlockTime this w
         = [MkCall (ProviderGetBlock p (JStr "latest"))]
  | (Returned (Some latest), w1) =>
      let earlier := JNum (num_sub (block_number latest) (num_of_Z 100)) in
      calls_of h EthereumAdapter.calculateAverageBlockTime this w
      = [MkCall (ProviderGetBlock p (JStr "latest")); MkCall (ProviderGetBlock p earlier)]
      /\ result_of h EthereumAdapter.calculateAverageBlockTime this w
         = match fst (h _ (ProviderGetBlock p earlier) w1) with
           | Thrown e => Thrown e
           | Returned None => Thrown (TypeError_read "null" "timestamp")
           | Returned (Some old) =>
               Returned (num_div (num_sub (block_timestamp latest) (block_timestamp old))
                           (num_of_Z 100))
           end
  end.
Proof.
  intros this. run_method.
  destruct (h _ (ProviderGetBlock p (JStr "latest")) w) as [[[latest|]|e] w1]; cbn; auto.
  destruct (h _ (ProviderGetBlock p _) w1) as [[[old|]|e] w2]; cbn; auto.
Qed.

(** X16.  On a provider that answers every query, the same way whenever it is
    asked, the Ethereum adapter's [getMetrics] returns an object with exactly
    four fields: [blockTime], the timestamp difference of the latest block and
    the one 100 below it divided by 100; [gasPrice], the provider's gas price
    in decimal digits; [nodeCount], what the provider's [getNetwork]
    answered; and [latency], a number. *)
Theorem ethereum_metrics_assembled (w : W) (config : NetworkConfig) (p : Handle)
    (latest old : Block) (g : Z) (n : JsValue) :
  (forall w', fst (h _ (ProviderGetBlock p (JStr "latest")) w') = Returned (Some latest)) ->
  (forall w', fst (h _ (ProviderGetBlock p
                          (JNum (num_sub (block_number latest) (num_of_Z 100)))) w')
              = Returned (Some old)) ->
  (forall w', fst (h _ (ProviderGetGasPrice p) w') = Returned g) ->
  (forall w', fst (h _ (ProviderGetNetwork p) w') = Returned n) ->
  (forall w', is_thrown (fst (h _ (ProviderGetBlockNumber p) w')) = false) ->
  (forall w', is_thrown (fst (h _ DateNow w')) = false) ->
  exists (m : JsObject) (latency : float64),
    result_of h EthereumAdapter.getMetrics (ethereum_with config p) w = Returned m
    /\ m !! "blockTime"
       = Some (JNum (num_div (num_sub (block_timestamp latest) (block_timestamp old))
                       (num_of_Z 100)))
    /\ m !! "gasPrice" = Some (JStr (pretty g))
    /\ m !! "nodeCount" = Some n
    /\ m !! "latency" = Some (JNum latency)
    /\ dom m = ({[ "blockTime"; "gasPrice"; "nodeCount"; "latency" ]} : gset string).
Proof.
  intros Hlatest Hold Hgas Hnet Hnumber Hclock. run_method.
  known_answer h Hlatest. known_answer h Hgas. known_answer h Hnet. known_answer h Hold.
  pose proof (Hclock w3) as E0.
  destruct (h _ DateNow w3) as [[t0|e] w4]; [clear E0|discriminate E0]; cbn.
  pose proof (Hnumber w4) as E1.
  destruct (h _ (ProviderGetBlockNumber p) w4) as [[bn|e] w5]; [clear E1|discriminate E1]; cbn.
  pose proof (Hclock w5) as E2.
  destruct (h _ DateNow w5) as [[t1|e] w6]; [clear E2|discriminate E2]; cbn.
  eexists _, _. split; [reflexivity|].
  split; [apply lookup_insert_eq|].
  split; [rewrite lookup_insert_ne by discriminate; apply lookup_insert_eq|].
  split; [rewrite !lookup_insert_ne by discriminate; apply lookup_insert_eq|].
  split; [rewrite !lookup_insert_ne by discriminate; apply lookup_singleton_eq|].
  rewrite !dom_insert_L, dom_singleton_L. set_solver.
Qed.

(** X17.  The Ethereum adapter's [generateProof] reaches no backend and does
    not change the adapter.  A proof it returns carries, as its data, the
    encoded serialization of the payload and, as its signature, the signature
    of exactly that data under the config's key; when it throws, the error is
    the one thrown by the first of serialization, encoding and signing to
    fail. *)
Theorem generateProof_signs_its_data (w : W) (this : EthereumAdapter.t) (d : JsValue) :
  calls_of h (EthereumAdapter.generateProof d) this w = []
  /\ this_after h (EthereumAdapter.generateProof d) this w = this
  /\ match result_of h (EthereumAdapter.generateProof d) this w with
     | Returned proof =>
         exists json bytes serialized signature,
           JSON_stringify d = Returned json
           /\ toUtf8Bytes json = Returned bytes
           /\ abi_encode_bytes bytes = Returned serialized
           /\ Wallet_signMessage (privateKey (EthereumAdapter.config this))
                (EthereumAdapter.provider this) serialized = Returned signature
           /\ proof = {| proof_data := JStr serialized;
                         proof_signature := JStr signature |}
     | Thrown e =>
         JSON_stringify d = Thrown e
         \/ (exists json, JSON_stringify d = Returned json
                          /\ (toUtf8Bytes json = Thrown e
              \/ exists bytes, toUtf8Bytes json = Returned bytes
                               /\ (abi_encode_bytes bytes = Thrown e
                   \/ exists serialized,
                        abi_encode_bytes bytes = Returned serialized
                        /\ Wallet_signMessage (privateKey (EthereumAdapter.config this))
                             (EthereumAdapter.provider this) serialized = Thrown e)))
     end.
Proof.
  run_method.
  destruct (JSON_stringify d) as [json|e] eqn:Hjson; cbn; [|auto].
  destruct (toUtf8Bytes json) as [bytes|e] eqn:Hbytes; cbn; [|eauto 10].
  destruct (abi_encode_bytes bytes) as [serialized|e] eqn:Hser; cbn; [|eauto 10].
  destruct (Wallet_signMessage _ _ serialized) as [signature|e] eqn:Hsig; cbn.
  - split; [reflexivity|]. split; [reflexivity|]. eauto 10.
  - split; [reflexivity|]. split; [reflexivity|]. right. eauto 10.
Qed.

End Ethereum.

Lemma ethereum_metrics_assembled_witness :
  exists m : JsObject,
    result_of Steady.backend EthereumAdapter.getMetrics (ethereum_with Mock.config 0)
      1000%Z = Returned m
    /\ m !! "blockTime" = Some (JNum (num_of_Z 12))
    /\ m !! "gasPrice" = Some (JStr "7").
Proof.
  destruct (ethereum_metrics_assembled Steady.backend 1000%Z Mock.config 0
              (Mock.block_at 5000) (Mock.block_at 4900) 7%Z
              (JObj {[ "name" := JStr "mock"; "chainId" := JBigInt 1337 ]})
              (fun w' => eq_refl) (fun w' => eq_refl) (fun w' => eq_refl)
              (fun w' => eq_refl) (fun w' => eq_refl) (fun w' => eq_refl))
    as (m & latency & Hresult & Hblock & Hgas & _).
  exists m. split; [exact Hresult|]. split; [|exact Hgas].
  rewrite Hblock. vm_compute. reflexivity.
Defined.
